(** * smart-todo-ai: the task store, the AI gateway and the endpoints

    A shallow embedding of [lib/db.ts] (class [Database]), [lib/ai-service.ts]
    (class [AIService]) and the handlers of [app/api/tasks/route.ts] and
    [app/api/tasks/[id]/route.ts], followed by the POST handlers of
    [app/api/context/route.ts], [app/api/ai/analyze/route.ts] and
    [app/api/ai/recommendations/route.ts], the counts of the dashboard, the
    priority badge of the task list and the request the insights panel sends
    for a recommendation.  The users table, the GET handlers (which parse
    their arguments out of the query string) and the rendering of the
    components are left out.

    Conventions of the model.
    - A table is the list of its rows, in insertion order.  A statement that
      the store accepts is modelled by its relational meaning: [WHERE] is a
      filter, [ORDER BY] a stable sort on the listed keys, [RETURNING *] the
      rows written.
    - The driver turns every interpolation of a tagged template into a
      placeholder of the text and a value bound by position.  The store
      rejects a statement whose text is no statement, one that refers to a
      value it was not given, one that binds more values than its text has
      parameters, and one that binds to a column a value the column cannot
      hold (a number that is no 32-bit integer to an INTEGER column, a text
      that is no timestamp to a TIMESTAMP column).  A rejected statement
      writes nothing.
    - The rows of a table hold what the columns hold: an id and a priority
      are integers, a timestamp is the instant it denotes, in seconds since
      the epoch (UTC), a date is a day number.
    - What a client or the completion service sends is JSON.  A number of
      the service or a priority of a request is a rational (the schema of the
      gateway asks for a number between two bounds, not for an integer); a
      deadline or a date is a text, which may be empty, or no timestamp at
      all.  The user id of a request is an integer and the id of a user: the
      foreign key on it is not modelled, nor is the width of the text
      columns.  The id in the path of a request is an integer, of any size.
    - [generateObject] of the [ai] package sends a request to the completion
      service and, the source setting no [maxRetries], repeats a request
      that failed in a way the package retries, twice at most.
    - An asynchronous function is a computation in the monad [M]: it threads
      the world (the database and the count of requests sent to the
      completion service) and either returns or throws. *)

From Stdlib Require Import ZArith QArith List String Bool Lia.
From Stdlib Require Import Sorting.Sorted Sorting.Permutation.
Import ListNotations.
Open Scope string_scope.
Open Scope list_scope.
Open Scope Z_scope.

(** ** JavaScript values *)

Module JS.

(** [Boolean(s)] for a string: every string but the empty one. *)
Definition truthy_string (s : string) : bool := negb (String.eqb s "").

(** [Boolean(n)] for an integer: every number but 0. *)
Definition truthy_number (n : Z) : bool := negb (n =? 0).

(** [Boolean(n)] for a number that need not be an integer. *)
Definition truthy_rational (n : Q) : bool := negb (Qeq_bool n (inject_Z 0)).

(** An array is an object: always truthy. *)
Definition truthy_array {A} (_ : list A) : bool := true.

(** A string that is meant to carry a value of [A], as the [deadline] of a
    suggestion carries a timestamp and the [entryDate] of a request a date:
    the empty string, a text that the store reads as a value, or any other
    text. *)
Inductive text (A : Type) : Type :=
| Blank
| Written (a : A)
| Unreadable.
Arguments Blank {A}.
Arguments Written {A} a.
Arguments Unreadable {A}.

(** [Boolean(s)] for such a string. *)
Definition truthy_text {A} (s : text A) : bool :=
  match s with
  | Blank => false
  | Written _ | Unreadable => true
  end.

(** [Boolean(x)] where [x] may be [undefined]. *)
Definition truthy {A} (t : A -> bool) (x : option A) : bool :=
  match x with
  | Some v => t v
  | None => false
  end.

(** [x || d]. *)
Definition or_else {A} (t : A -> bool) (x : option A) (d : A) : A :=
  match x with
  | Some v => if t v then v else d
  | None => d
  end.

(** [x || null]. *)
Definition or_null {A} (t : A -> bool) (x : option A) : option A :=
  match x with
  | Some v => if t v then Some v else None
  | None => None
  end.

(** [x = d] in a destructuring pattern: the default replaces [undefined] only. *)
Definition default_to {A} (x : option A) (d : A) : A :=
  match x with
  | Some v => v
  | None => d
  end.

(** [xs.join(sep)]. *)
Definition join (sep : string) (xs : list string) : string := String.concat sep xs.

(** [xs.slice(0, n)]. *)
Definition slice0 {A} (n : nat) (xs : list A) : list A := firstn n xs.

(** A template literal's rendering of a string that may be [undefined]. *)
Definition render (x : option string) : string := default_to x "undefined".

End JS.

(** ** Results of asynchronous calls *)

(** What a call may throw, under the names of the specification's taxonomy:
    the completion service fails or answers off schema, the store rejects a
    statement.  Nothing in the code raises [NotFound]. *)
Inductive error : Type :=
| AIServiceError
| StoreError
| NotFound.

Inductive outcome (A : Type) : Type :=
| Returned (a : A)
| Thrown (e : error).
Arguments Returned {A} a.
Arguments Thrown {A} e.

(** ** The store's reading of a statement *)

Module SQL.

Section Ordering.
Context {A : Type}.

Definition ordering := A -> A -> comparison.

(** [k ASC]. *)
Definition asc (k : A -> Z) : ordering := fun a b => k a ?= k b.

(** [k DESC]. *)
Definition desc (k : A -> Z) : ordering := fun a b => k b ?= k a.

(** [k ASC NULLS LAST]. *)
Definition asc_nulls_last (k : A -> option Z) : ordering :=
  fun a b =>
    match k a, k b with
    | Some x, Some y => x ?= y
    | Some _, None => Lt
    | None, Some _ => Gt
    | None, None => Eq
    end.

(** [ORDER BY k1, k2, ...]: the first key that tells two rows apart decides. *)
Fixpoint order_by (keys : list ordering) : ordering :=
  fun a b =>
    match keys with
    | [] => Eq
    | c :: rest =>
        match c a b with
        | Eq => order_by rest a b
        | r => r
        end
    end.

(** [a] may come before [b]. *)
Definition precedes (c : ordering) (a b : A) : bool :=
  match c a b with
  | Gt => false
  | _ => true
  end.

(** [a] is not after [b]. *)
Definition not_after (c : ordering) (a b : A) : Prop := c a b <> Gt.

Fixpoint insert (c : ordering) (x : A) (l : list A) : list A :=
  match l with
  | [] => [x]
  | y :: l' => if precedes c x y then x :: l else y :: insert c x l'
  end.

(** The rows in the order of [c]; rows that [c] does not tell apart keep
    their table order. *)
Definition sort (c : ordering) (l : list A) : list A :=
  fold_right (insert c) [] l.

(** What makes an ordering usable as a sort order. *)
Record weak_order (c : ordering) : Prop := {
  wo_sym : forall a b, c b a = CompOpp (c a b);
  wo_lt : forall a b d, c a b = Lt -> c b d = Lt -> c a d = Lt;
  wo_eq : forall a b d, c a b = Eq -> c a d = c b d
}.

End Ordering.

(** A statement of a tagged template as the store receives it: the
    parameters [$1], [$2], ... that its text has outside quoted literals,
    and the values the driver binds, one for each interpolation. *)
Record statement : Type := {
  parameters : nat;
  bound_values : nat
}.

(** The store takes a statement that binds as many values as its text has
    parameters. *)
Definition accepted (s : statement) : bool :=
  Nat.eqb (parameters s) (bound_values s).

(** The values of an INTEGER column. *)
Definition int4 (z : Z) : bool := (-2147483648 <=? z) && (z <=? 2147483647).

(** A number bound to an INTEGER column: the integer it is, or [None] when
    it is no integer of the column and the statement is rejected. *)
Definition integer (q : Q) : option Z :=
  if Qnum q mod Z.pos (Qden q) =? 0
  then let z := Qnum q / Z.pos (Qden q) in
       if int4 z then Some z else None
  else None.

(** A text bound to a TIMESTAMP or DATE column: the value it reads as, or
    [None] when it reads as none (the empty text reads as none). *)
Definition read {A} (s : JS.text A) : option A :=
  match s with
  | JS.Written a => Some a
  | JS.Blank | JS.Unreadable => None
  end.

(** A value or [null] bound to a column that may be NULL. *)
Definition nullable {A B} (bind_value : A -> option B) (x : option A)
  : option (option B) :=
  match x with
  | None => Some None
  | Some v => option_map Some (bind_value v)
  end.

End SQL.

(** ** Entities ([lib/db.ts]) *)

Definition timestamp := Z.
Definition date := Z.

(** A row of [tasks]. *)
Record Task : Type := {
  id : Z;
  user_id : Z;
  title : string;
  description : option string;
  priority : Z;
  status : string;
  deadline : option timestamp;
  ai_suggested_priority : option Z;
  ai_suggested_deadline : option timestamp;
  context_tags : option (list string);
  created_at : timestamp;
  updated_at : timestamp;
  completed_at : option timestamp
}.

(** A row of [context_entries]. *)
Record ContextEntry : Type := {
  ce_id : Z;
  ce_user_id : Z;
  content : string;
  entry_type : string;
  entry_date : date;
  ce_created_at : timestamp
}.

(** [Omit<Task, "id" | "created_at" | "updated_at">], as a caller builds it:
    [priority: number], [deadline?: string]. *)
Record TaskData : Type := {
  td_user_id : Z;
  td_title : string;
  td_description : option string;
  td_priority : Q;
  td_status : string;
  td_deadline : option (JS.text timestamp);
  td_ai_suggested_priority : option Q;
  td_ai_suggested_deadline : option (JS.text timestamp);
  td_context_tags : option (list string);
  td_completed_at : option (JS.text timestamp)
}.

(** [Partial<Task>]: every key of [Task], each optional. *)
Record TaskUpdates : Type := {
  u_id : option Z;
  u_user_id : option Z;
  u_title : option string;
  u_description : option string;
  u_priority : option Q;
  u_status : option string;
  u_deadline : option (JS.text timestamp);
  u_ai_suggested_priority : option Q;
  u_ai_suggested_deadline : option (JS.text timestamp);
  u_context_tags : option (list string);
  u_created_at : option (JS.text timestamp);
  u_updated_at : option (JS.text timestamp);
  u_completed_at : option (JS.text timestamp)
}.

(** The tables, and the sequence behind [tasks.id SERIAL]. *)
Record Tables : Type := {
  tasks : list Task;
  context_entries : list ContextEntry;
  tasks_id_seq : Z
}.

(** ** The monad of asynchronous calls *)

Record World : Type := {
  db : Tables;
  ai_calls : nat
}.

Definition M (A : Type) : Type := World -> World * outcome A.

Definition ret {A} (a : A) : M A := fun w => (w, Returned a).

Definition bind {A B} (m : M A) (k : A -> M B) : M B :=
  fun w =>
    match m w with
    | (w', Returned a) => k a w'
    | (w', Thrown e) => (w', Thrown e)
    end.

(** [try { m } catch (error) { h }]. *)
Definition try_catch {A} (m : M A) (h : error -> M A) : M A :=
  fun w =>
    match m w with
    | (w', Returned a) => (w', Returned a)
    | (w', Thrown e) => h e w'
    end.

Notation "x <- m ;; k" := (bind m (fun x => k))
  (at level 61, m at next level, right associativity).

(** ** The data access layer ([lib/db.ts], class [Database]) *)

Definition completed : string := "completed".
Definition pending : string := "pending".
Definition in_progress : string := "in_progress".

(** [CURRENT_DATE], at the instant [now]. *)
Definition current_date (now : timestamp) : date := now / 86400.

(** [Omit<ContextEntry, "id" | "created_at">]: [entry_date: string]. *)
Record ContextEntryData : Type := {
  ced_user_id : Z;
  ced_content : string;
  ced_entry_type : string;
  ced_entry_date : JS.text date
}.

Module Database.

(** [ORDER BY CASE WHEN status = 'completed' THEN 1 ELSE 0 END,
    priority ASC, deadline ASC NULLS LAST, created_at DESC]. *)
Definition tasks_order : SQL.ordering (A := Task) :=
  SQL.order_by
    [ SQL.asc (fun t => if String.eqb (status t) completed then 1 else 0);
      SQL.asc priority;
      SQL.asc_nulls_last deadline;
      SQL.desc created_at ].

Definition getTasks (userId : Z) : M (list Task) :=
  fun w =>
    (w, Returned (SQL.sort tasks_order
                    (filter (fun t => user_id t =? userId) (tasks (db w))))).

(** The row of [INSERT INTO tasks (user_id, ..., context_tags) VALUES ...],
    or [None] when the store rejects a bound value.  [completed_at] is not
    among the columns and stays NULL; [id] comes from the sequence, and both
    timestamps default to the current one.  [priority] and
    [ai_suggested_priority || null] are bound to INTEGER columns,
    [deadline || null] and [ai_suggested_deadline || null] to TIMESTAMP
    columns. *)
Definition inserted_row (now : timestamp) (seq : Z) (task : TaskData)
  : option Task :=
  match SQL.integer (td_priority task),
        SQL.nullable SQL.read (JS.or_null JS.truthy_text (td_deadline task)),
        SQL.nullable SQL.integer
          (JS.or_null JS.truthy_rational (td_ai_suggested_priority task)),
        SQL.nullable SQL.read
          (JS.or_null JS.truthy_text (td_ai_suggested_deadline task))
  with
  | Some priority0, Some deadline0, Some suggested_priority,
    Some suggested_deadline =>
      Some {| id := seq + 1;
              user_id := td_user_id task;
              title := td_title task;
              description := JS.or_null JS.truthy_string (td_description task);
              priority := priority0;
              status := td_status task;
              deadline := deadline0;
              ai_suggested_priority := suggested_priority;
              ai_suggested_deadline := suggested_deadline;
              context_tags := JS.or_null JS.truthy_array (td_context_tags task);
              created_at := now;
              updated_at := now;
              completed_at := None |}
  | _, _, _, _ => None
  end.

Definition createTask (now : timestamp) (task : TaskData) : M Task :=
  fun w =>
    match inserted_row now (tasks_id_seq (db w)) task with
    | Some row =>
        ({| db := {| tasks := tasks (db w) ++ [row];
                     context_entries := context_entries (db w);
                     tasks_id_seq := tasks_id_seq (db w) + 1 |};
            ai_calls := ai_calls w |},
         Returned row)
    | None => (w, Thrown StoreError)
    end.

(** The keys of [Task]. *)
Inductive column : Type :=
| col_id | col_user_id | col_title | col_description | col_priority
| col_status | col_deadline | col_ai_suggested_priority
| col_ai_suggested_deadline | col_context_tags | col_created_at
| col_updated_at | col_completed_at.

Definition columns : list column :=
  [ col_id; col_user_id; col_title; col_description; col_priority;
    col_status; col_deadline; col_ai_suggested_priority;
    col_ai_suggested_deadline; col_context_tags; col_created_at;
    col_updated_at; col_completed_at ].

Definition is_defined {A} (x : option A) : bool :=
  match x with
  | Some _ => true
  | None => false
  end.

(** [value !== undefined], for the entry of key [c]. *)
Definition defined (updates : TaskUpdates) (c : column) : bool :=
  match c with
  | col_id => is_defined (u_id updates)
  | col_user_id => is_defined (u_user_id updates)
  | col_title => is_defined (u_title updates)
  | col_description => is_defined (u_description updates)
  | col_priority => is_defined (u_priority updates)
  | col_status => is_defined (u_status updates)
  | col_deadline => is_defined (u_deadline updates)
  | col_ai_suggested_priority => is_defined (u_ai_suggested_priority updates)
  | col_ai_suggested_deadline => is_defined (u_ai_suggested_deadline updates)
  | col_context_tags => is_defined (u_context_tags updates)
  | col_created_at => is_defined (u_created_at updates)
  | col_updated_at => is_defined (u_updated_at updates)
  | col_completed_at => is_defined (u_completed_at updates)
  end.

(** The items of [setClause], one text `key = $key` per entry of
    [Object.entries(updates).filter(([_, value]) => value !== undefined)]:
    the map keeps the key of an entry and drops its value. *)
Definition setClause (updates : TaskUpdates) : list column :=
  filter (defined updates) columns.

(** The statement of [updateTask] as the driver receives it: the items of the
    SET clause, interpolated as text through [sql.unsafe], and the one
    interpolated value, the id, bound by position.  No value of [updates]
    is part of it. *)
Record UpdateStatement : Type := {
  set_items : list column;
  where_id : Z
}.

Definition update_statement (i : Z) (updates : TaskUpdates) : UpdateStatement :=
  {| set_items := setClause updates; where_id := i |}.

(** [UPDATE tasks SET <items>, updated_at = CURRENT_TIMESTAMP WHERE id = ...
    RETURNING *].  With no item the text reads [SET , updated_at = ...],
    which is no statement: the store rejects it at the comma.  An item
    `key = $key` refers to a placeholder named after its column; the
    statement binds one value, by position, and none under a name, so the
    store has no value for the item and rejects the statement as well.
    Either way nothing is written and no row is returned. *)
Definition execute_update (now : timestamp) (statement : UpdateStatement)
  : M (list Task) :=
  fun w =>
    match set_items statement with
    | [] => (w, Thrown StoreError)
    | _ :: _ => (w, Thrown StoreError)
    end.

(** [return tasks[0]]: [None] is the [undefined] that indexing an empty
    result gives. *)
Definition updateTask (now : timestamp) (i : Z) (updates : TaskUpdates)
  : M (option Task) :=
  bind (execute_update now (update_statement i updates))
       (fun tasks => ret (hd_error tasks)).

(** [DELETE FROM tasks WHERE id = ...]: the id is bound to the INTEGER
    column [id]. *)
Definition deleteTask (i : Z) : M unit :=
  fun w =>
    if SQL.int4 i
    then
      ({| db := {| tasks := filter (fun r => negb (id r =? i)) (tasks (db w));
                   context_entries := context_entries (db w);
                   tasks_id_seq := tasks_id_seq (db w) |};
          ai_calls := ai_calls w |},
       Returned tt)
    else (w, Thrown StoreError).

(** [ORDER BY entry_date DESC, created_at DESC]. *)
Definition context_order : SQL.ordering (A := ContextEntry) :=
  SQL.order_by [ SQL.desc entry_date; SQL.desc ce_created_at ].

(** The statement of [getContextEntries] has two interpolations, [userId]
    and [days], and so two bound values.  Its text is
    [... WHERE user_id = $1 AND entry_date >= CURRENT_DATE - INTERVAL '$2 days' ...]:
    the second placeholder sits inside the quoted literal of the interval,
    where it is text, and the statement has one parameter. *)
Definition context_statement : SQL.statement :=
  {| SQL.parameters := 1; SQL.bound_values := 2 |}.

(** [days = 7] by default.  The rows are those the statement would select
    if the store took it, the interval read as that many days. *)
Definition getContextEntries (today : date) (userId : Z) (days : option Z)
  : M (list ContextEntry) :=
  fun w =>
    let d := JS.default_to days 7 in
    if SQL.accepted context_statement
    then (w, Returned (SQL.sort context_order
                         (filter (fun e => (ce_user_id e =? userId)
                                           && (today - d <=? entry_date e))
                                 (context_entries (db w)))))
    else (w, Thrown StoreError).

(** [INSERT INTO context_entries (user_id, content, entry_type, entry_date)
    VALUES ... RETURNING *].  [entry.entry_date || "CURRENT_DATE"] binds the
    text of the entry, or the text [CURRENT_DATE] in place of an empty one:
    a text, not the function of that name, and no date.  [nextval] is the id
    the sequence of the table hands out; [created_at] defaults to the
    current timestamp. *)
Definition createContextEntry (now : timestamp) (nextval : Z)
           (entry : ContextEntryData) : M ContextEntry :=
  fun w =>
    let entry_date_text :=
      if JS.truthy_text (ced_entry_date entry)
      then ced_entry_date entry
      else JS.Unreadable in
    match SQL.read entry_date_text with
    | Some day =>
        let row := {| ce_id := nextval;
                      ce_user_id := ced_user_id entry;
                      content := ced_content entry;
                      entry_type := ced_entry_type entry;
                      entry_date := day;
                      ce_created_at := now |} in
        ({| db := {| tasks := tasks (db w);
                     context_entries := context_entries (db w) ++ [row];
                     tasks_id_seq := tasks_id_seq (db w) |};
            ai_calls := ai_calls w |},
         Returned row)
    | None => (w, Thrown StoreError)
    end.

End Database.

(** ** The AI gateway ([lib/ai-service.ts], class [AIService]) *)

(** [priority: z.number()], [deadline: z.string().optional()]. *)
Record Suggestion : Type := {
  s_priority : Q;
  s_deadline : option (JS.text timestamp);
  s_reasoning : string;
  s_contextTags : list string
}.

Record ParsedTask : Type := {
  p_title : string;
  p_description : string;
  p_priority : Q;
  p_deadline : option (JS.text timestamp);
  p_contextTags : list string
}.

Record Recommendation : Type := {
  r_title : string;
  r_description : string;
  r_priority : Q;
  r_reasoning : string;
  r_contextTags : list string
}.

(** What the completion service does with one request: it answers with an
    object of the expected shape, it fails in a way that the package
    retries (no connection, an overloaded or failing server), or it fails
    in a way that the package does not retry (a refused request, an answer
    that is no object of the shape). *)
Inductive reply (A : Type) : Type :=
| Answer (object : A)
| Unavailable
| Refused.
Arguments Answer {A} object.
Arguments Unavailable {A}.
Arguments Refused {A}.

(** The completion service: its reply to a prompt, given the number of
    requests it has received before. *)
Record Service : Type := {
  answer_suggestion : nat -> string -> reply Suggestion;
  answer_parse : nat -> string -> reply ParsedTask;
  answer_recommendations : nat -> string -> reply (list Recommendation)
}.

Record Analysis : Type := {
  workloadAssessment : string;
  priorityDistribution : string;
  schedulingInsights : string;
  managementSuggestions : list string
}.

(** How a template literal prints a number and the text of a timestamp. *)
Record Render : Type := {
  show_number : Z -> string;
  show_timestamp : timestamp -> string
}.

Module AIService.

Definition nl : string := String (Ascii.ascii_of_nat 10) EmptyString.

(** [z.number().min(1).max(3)]: a number from 1 to 3, an integer or not. *)
Definition priority_schema (p : Q) : bool :=
  Qle_bool (inject_Z 1) p && Qle_bool p (inject_Z 3).

Definition TaskSuggestionSchema (s : Suggestion) : bool :=
  priority_schema (s_priority s).

Definition ParsedTaskSchema (p : ParsedTask) : bool :=
  priority_schema (p_priority p).

Definition TaskRecommendationsSchema (rs : list Recommendation) : bool :=
  forallb (fun r => priority_schema (r_priority r)) rs.

(** The default of the package, which no call of the source overrides. *)
Definition maxRetries : nat := 2.

(** One request and, while it fails in the way that is retried and a retry
    is left, the next one.  An answer that fails the schema is thrown, not
    returned, and not asked for again. *)
Fixpoint attempt {A} (retries : nat) (answer : nat -> string -> reply A)
         (schema : A -> bool) (prompt : string) (w : World) {struct retries}
  : World * outcome A :=
  let w' := {| db := db w; ai_calls := S (ai_calls w) |} in
  match answer (ai_calls w) prompt with
  | Answer object =>
      (w', if schema object then Returned object else Thrown AIServiceError)
  | Refused => (w', Thrown AIServiceError)
  | Unavailable =>
      match retries with
      | O => (w', Thrown AIServiceError)
      | S rest => attempt rest answer schema prompt w'
      end
  end.

(** [generateObject({ model, system, prompt, schema })]. *)
Definition generateObject {A} (answer : nat -> string -> reply A)
           (schema : A -> bool) (prompt : string) : M A :=
  attempt maxRetries answer schema prompt.

(** [`${entry.entry_type}: ${entry.content}`]. *)
Definition entry_line (entry : ContextEntry) : string :=
  (entry_type entry ++ ": " ++ content entry)%string.

(** The prompts keep the interpolated parts of the templates and their
    headings; the fixed instructions around them belong to the service. *)
Definition suggestTaskPriority (ai : Service) (title : string)
           (description : option string) (contextEntries : list ContextEntry)
  : M Suggestion :=
  let contextSummary :=
    JS.join nl (map entry_line (JS.slice0 10 contextEntries)) in
  generateObject (answer_suggestion ai) TaskSuggestionSchema
    ("Task: " ++ title ++ nl ++ "Description: " ++ JS.render description ++ nl
     ++ "Recent Context:" ++ nl ++ contextSummary)%string.

Definition recommendTasks (ai : Service) (contextEntries : list ContextEntry)
           (existingTasks : list Task) : M (list Recommendation) :=
  let contextSummary := JS.join nl (map entry_line contextEntries) in
  if negb (JS.truthy_string contextSummary) then ret []
  else
    let existingTaskTitles := JS.join nl (map title existingTasks) in
    generateObject (answer_recommendations ai) TaskRecommendationsSchema
      ("Recent Context:" ++ nl ++ contextSummary ++ nl
       ++ "Existing Tasks (don't duplicate):" ++ nl ++ existingTaskTitles)%string.

Definition parseNaturalLanguageTask (ai : Service) (input : string)
           (contextEntries : list ContextEntry) : M ParsedTask :=
  let contextSummary :=
    JS.join nl (map entry_line (JS.slice0 5 contextEntries)) in
  generateObject (answer_parse ai) ParsedTaskSchema
    ("User input: " ++ input ++ nl ++ "Recent context for reference:" ++ nl
     ++ contextSummary)%string.

(** Strings and an array of strings: every object of the type passes. *)
Definition TaskAnalysisSchema (_ : Analysis) : bool := true.

(** [`${task.title} (Priority: ${task.priority}, Deadline: ${task.deadline || "None"})`]. *)
Definition task_line (render : Render) (task : Task) : string :=
  (title task ++ " (Priority: " ++ show_number render (priority task)
   ++ ", Deadline: "
   ++ JS.or_else JS.truthy_string
        (option_map (show_timestamp render) (deadline task)) "None"
   ++ ")")%string.

(** [null] is [None]. *)
Definition analyzeTasks (answer_analysis : nat -> string -> reply Analysis)
           (render : Render) (tasks : list Task)
           (contextEntries : list ContextEntry) : M (option Analysis) :=
  let contextSummary := JS.join nl (map entry_line contextEntries) in
  let taskList :=
    JS.join nl
      (map (task_line render)
           (filter (fun task => negb (String.eqb (status task) completed)) tasks)) in
  if negb (JS.truthy_string taskList) && negb (JS.truthy_string contextSummary)
  then ret None
  else
    bind (generateObject answer_analysis TaskAnalysisSchema
            ("Current Tasks:" ++ nl
             ++ JS.or_else JS.truthy_string (Some taskList) "No active tasks." ++ nl
             ++ "Recent Context (last 7 days):" ++ nl
             ++ JS.or_else JS.truthy_string (Some contextSummary)
                  "No recent context.")%string)
         (fun object => ret (Some object)).

End AIService.

(** ** The task endpoints ([app/api/tasks]) *)

(** [NextResponse.json(payload)] and [NextResponse.json({ error }, { status })]. *)
Inductive response (A : Type) : Type :=
| Json (payload : A)
| JsonError (message : string) (code : Z).
Arguments Json {A} payload.
Arguments JsonError {A} message code.

(** The body of [POST /api/tasks].  The handler reads [userId], [title],
    [description], [useAI] and [naturalLanguage]; a body may carry more, and
    the form of [components/task-form.tsx] sends [priority]. *)
Record PostBody : Type := {
  b_userId : option Z;
  b_title : option string;
  b_description : option string;
  b_priority : option Q;
  b_status : option string;
  b_deadline : option (JS.text timestamp);
  b_completed_at : option (JS.text timestamp);
  b_useAI : option bool;
  b_naturalLanguage : option bool
}.

(** The body of [PUT /api/tasks/[id]]. *)
Record PutBody : Type := {
  pb_title : option string;
  pb_description : option string;
  pb_priority : option Q;
  pb_status : option string;
  pb_deadline : option (JS.text timestamp)
}.

(** [taskData] as the handler first builds it. *)
Definition initial_taskData (userId : Z) (title : string)
           (description : option string) : TaskData :=
  {| td_user_id := userId;
     td_title := title;
     td_description := Some (JS.or_else JS.truthy_string description "");
     td_priority := inject_Z 3;
     td_status := pending;
     td_deadline := None;
     td_ai_suggested_priority := None;
     td_ai_suggested_deadline := None;
     td_context_tags := Some [];
     td_completed_at := None |}.

(** [{ ...taskData, title: parsed.title, ..., context_tags: parsed.contextTags }]. *)
Definition with_parsed (taskData : TaskData) (parsed : ParsedTask) : TaskData :=
  {| td_user_id := td_user_id taskData;
     td_title := p_title parsed;
     td_description := Some (p_description parsed);
     td_priority := p_priority parsed;
     td_status := td_status taskData;
     td_deadline := p_deadline parsed;
     td_ai_suggested_priority := td_ai_suggested_priority taskData;
     td_ai_suggested_deadline := td_ai_suggested_deadline taskData;
     td_context_tags := Some (p_contextTags parsed);
     td_completed_at := td_completed_at taskData |}.

(** The five assignments of the suggestion branch; the last one is under
    [if (suggestion.deadline)]. *)
Definition with_suggestion (taskData : TaskData) (suggestion : Suggestion) : TaskData :=
  {| td_user_id := td_user_id taskData;
     td_title := td_title taskData;
     td_description := td_description taskData;
     td_priority := s_priority suggestion;
     td_status := td_status taskData;
     td_deadline := if JS.truthy JS.truthy_text (s_deadline suggestion)
                    then s_deadline suggestion
                    else td_deadline taskData;
     td_ai_suggested_priority := Some (s_priority suggestion);
     td_ai_suggested_deadline := s_deadline suggestion;
     td_context_tags := Some (s_contextTags suggestion);
     td_completed_at := td_completed_at taskData |}.

Definition POST (ai : Service) (now : timestamp) (body : PostBody)
  : M (response Task) :=
  try_catch
    (let useAI := JS.default_to (b_useAI body) false in
     let naturalLanguage := JS.default_to (b_naturalLanguage body) false in
     match b_userId body, b_title body with
     | Some userId, Some title =>
         if negb (JS.truthy_number userId) || negb (JS.truthy_string title)
         then ret (JsonError "User ID and title required" 400)
         else
           let taskData := initial_taskData userId title (b_description body) in
           taskData <-
             (if useAI || naturalLanguage
              then
                contextEntries <-
                  Database.getContextEntries (current_date now) userId None ;;
                if naturalLanguage
                then
                  parsed <- AIService.parseNaturalLanguageTask ai title contextEntries ;;
                  ret (with_parsed taskData parsed)
                else
                  suggestion <-
                    AIService.suggestTaskPriority ai title (b_description body)
                                                  contextEntries ;;
                  ret (with_suggestion taskData suggestion)
              else ret taskData) ;;
           task <- Database.createTask now taskData ;;
           ret (Json task)
     | _, _ => ret (JsonError "User ID and title required" 400)
     end)
    (fun _ => ret (JsonError "Failed to create task" 500)).

(** The [updates] object the handler of PUT builds; [completed_at] is the
    text of the instant of the request. *)
Definition put_updates (now : timestamp) (body : PutBody) : TaskUpdates :=
  {| u_id := None;
     u_user_id := None;
     u_title := pb_title body;
     u_description := pb_description body;
     u_priority := pb_priority body;
     u_status := pb_status body;
     u_deadline := pb_deadline body;
     u_ai_suggested_priority := None;
     u_ai_suggested_deadline := None;
     u_context_tags := None;
     u_created_at := None;
     u_updated_at := None;
     u_completed_at :=
       match pb_status body with
       | Some s => if String.eqb s completed then Some (JS.Written now) else None
       | None => None
       end |}.

Definition PUT (now : timestamp) (taskId : Z) (body : PutBody)
  : M (response (option Task)) :=
  try_catch
    (task <- Database.updateTask now taskId (put_updates now body) ;;
     ret (Json task))
    (fun _ => ret (JsonError "Failed to update task" 500)).

Definition DELETE (taskId : Z) : M (response bool) :=
  try_catch
    (_ <- Database.deleteTask taskId ;;
     ret (Json true))
    (fun _ => ret (JsonError "Failed to delete task" 500)).

(** ** Sequences of writes *)




(** ** The properties, in the words of the specification *)


Definition valid_status (s : string) : Prop :=
  s = pending \/ s = in_progress \/ s = completed.


Definition is_completed (t : Task) : bool := String.eqb (status t) completed.

(** [a] has its deadline strictly before [b]: earlier, or set where [b]'s is not. *)
Definition deadline_before (a b : Task) : Prop :=
  match deadline a, deadline b with
  | Some x, Some y => x < y
  | Some _, None => True
  | None, _ => False
  end.

(** [a] may be listed before [b] by [getTasks]: non-completed before
    completed, then ascending priority, then ascending deadline with the
    missing ones last, then descending creation time. *)
Definition listed_before (a b : Task) : Prop :=
  (is_completed a = false /\ is_completed b = true)
  \/ (is_completed a = is_completed b
      /\ (priority a < priority b
          \/ (priority a = priority b
              /\ (deadline_before a b
                  \/ (deadline a = deadline b /\ created_at b <= created_at a))))).

(** The world once [row] is inserted and [calls] requests to the service
    are counted. *)
Definition after_insert (w : World) (calls : nat) (row : Task) : World :=
  {| db := {| tasks := tasks (db w) ++ [row];
              context_entries := context_entries (db w);
              tasks_id_seq := tasks_id_seq (db w) + 1 |};
     ai_calls := calls |}.

(** No stored Task has the id [i]. *)
Definition absent (i : Z) (w : World) : Prop :=
  forall t, In t (tasks (db w)) -> id t <> i.

(** ** Sample data *)

Module Sample.

(** A service that is down. *)
Definition silent : Service :=
  {| answer_suggestion := fun _ _ => Unavailable;
     answer_parse := fun _ _ => Unavailable;
     answer_recommendations := fun _ _ => Unavailable |}.

(** A service that suggests priority 1 and the deadline 1000000. *)
Definition urgent : Service :=
  {| answer_suggestion := fun _ _ =>
       Answer {| s_priority := inject_Z 1;
                 s_deadline := Some (JS.Written 1000000);
                 s_reasoning := "due soon"; s_contextTags := ["work"] |};
     answer_parse := fun _ _ =>
       Answer {| p_title := "Prepare review slides"; p_description := "slides";
                 p_priority := inject_Z 1;
                 p_deadline := Some (JS.Written 1000000);
                 p_contextTags := ["work"] |};
     answer_recommendations := fun _ _ => Answer [] |}.

Definition empty_world : World :=
  {| db := {| tasks := []; context_entries := []; tasks_id_seq := 0 |};
     ai_calls := 0 |}.

(** The form's request with AI switched off and priority High chosen. *)
Definition plain_high : PostBody :=
  {| b_userId := Some 1; b_title := Some "Pay rent"; b_description := Some "";
     b_priority := Some (inject_Z 1); b_status := None; b_deadline := None;
     b_completed_at := None; b_useAI := Some false;
     b_naturalLanguage := Some false |}.

(** A request without AI that also tries to set status and stamp. *)
Definition plain_completed : PostBody :=
  {| b_userId := Some 1; b_title := Some "File the report";
     b_description := Some "quarterly"; b_priority := Some (inject_Z 2);
     b_status := Some completed; b_deadline := None;
     b_completed_at := Some (JS.Written 5); b_useAI := None;
     b_naturalLanguage := None |}.

(** A request for a suggestion that also tries to set status and stamp. *)
Definition suggest_body : PostBody :=
  {| b_userId := Some 1; b_title := Some "Pay rent"; b_description := None;
     b_priority := Some (inject_Z 3); b_status := Some completed;
     b_deadline := None; b_completed_at := Some (JS.Written 5);
     b_useAI := Some true; b_naturalLanguage := None |}.

(** A request in natural language. *)
Definition natural_body : PostBody :=
  {| b_userId := Some 1; b_title := Some "prepare slides for Friday review";
     b_description := None; b_priority := None; b_status := None;
     b_deadline := None; b_completed_at := None; b_useAI := None;
     b_naturalLanguage := Some true |}.

Definition task1 : Task :=
  {| id := 1; user_id := 1; title := "Pay rent"; description := None;
     priority := 2; status := pending; deadline := Some 500;
     ai_suggested_priority := None; ai_suggested_deadline := None;
     context_tags := Some []; created_at := 10; updated_at := 10;
     completed_at := None |}.

Definition one_task : World :=
  {| db := {| tasks := [task1]; context_entries := []; tasks_id_seq := 1 |};
     ai_calls := 0 |}.

Definition seed_task (i priority0 : Z) (status0 : string) (deadline0 : Z) : Task :=
  {| id := i; user_id := 1; title := "task"; description := None;
     priority := priority0; status := status0; deadline := Some deadline0;
     ai_suggested_priority := None; ai_suggested_deadline := None;
     context_tags := None; created_at := 0; updated_at := 0;
     completed_at := None |}.

(** Six tasks with the priorities, statuses and deadlines (in days) of the
    seed script's sample tasks. *)
Definition seed : World :=
  {| db := {| tasks := [ seed_task 1 1 pending 3; seed_task 2 1 in_progress 1;
                         seed_task 3 2 pending 10; seed_task 4 3 pending 2;
                         seed_task 5 3 pending 4; seed_task 6 2 completed (-5) ];
              context_entries := [];
              tasks_id_seq := 6 |};
     ai_calls := 0 |}.

Definition only_status (s : string) : PutBody :=
  {| pb_title := None; pb_description := None; pb_priority := None;
     pb_status := Some s; pb_deadline := None |}.

Definition title_body (s : string) : PutBody :=
  {| pb_title := Some s; pb_description := None; pb_priority := None;
     pb_status := None; pb_deadline := None |}.

Definition only_title (s : string) : TaskUpdates :=
  {| u_id := None; u_user_id := None; u_title := Some s;
     u_description := None; u_priority := None; u_status := None;
     u_deadline := None; u_ai_suggested_priority := None;
     u_ai_suggested_deadline := None; u_context_tags := None;
     u_created_at := None; u_updated_at := None; u_completed_at := None |}.

Definition entry (i : Z) (day : date) : ContextEntry :=
  {| ce_id := i; ce_user_id := 1; content := "standup"; entry_type := "note";
     entry_date := day; ce_created_at := day * 86400 |}.

(** Today is day 100; entries dated today, 3 days ago and 10 days ago. *)
Definition three_entries : World :=
  {| db := {| tasks := [];
              context_entries := [entry 1 90; entry 2 97; entry 3 100];
              tasks_id_seq := 0 |};
     ai_calls := 0 |}.

End Sample.

(** ** The context and analysis endpoints ([app/api/context], [app/api/ai]) *)

(** The body of [POST /api/context]. *)
Record ContextBody : Type := {
  cb_userId : option Z;
  cb_content : option string;
  cb_entryType : option string;
  cb_entryDate : option (JS.text date)
}.

Module ContextRoute.

(** [entryDate || new Date().toISOString().split("T")[0]]: the text of the
    date of the request when the body gives none, or an empty one. *)
Definition POST (now : timestamp) (nextval : Z) (body : ContextBody)
  : M (response ContextEntry) :=
  try_catch
    (match cb_userId body, cb_content body, cb_entryType body with
     | Some userId, Some content0, Some entryType =>
         if negb (JS.truthy_number userId) || negb (JS.truthy_string content0)
            || negb (JS.truthy_string entryType)
         then ret (JsonError "Missing required fields" 400)
         else
           contextEntry <-
             Database.createContextEntry now nextval
               {| ced_user_id := userId;
                  ced_content := content0;
                  ced_entry_type := entryType;
                  ced_entry_date :=
                    JS.or_else JS.truthy_text (cb_entryDate body)
                               (JS.Written (current_date now)) |} ;;
           ret (Json contextEntry)
     | _, _, _ => ret (JsonError "Missing required fields" 400)
     end)
    (fun _ => ret (JsonError "Failed to create context entry" 500)).

End ContextRoute.

Module AnalyzeRoute.

(** [POST /api/ai/analyze]: both reads, then the analysis. *)
Definition POST (answer_analysis : nat -> string -> reply Analysis)
           (render : Render) (now : timestamp) (userId : option Z)
  : M (response (option Analysis)) :=
  try_catch
    (match userId with
     | Some id0 =>
         if negb (JS.truthy_number id0)
         then ret (JsonError "Valid userId required" 400)
         else
           tasks0 <- Database.getTasks id0 ;;
           contextEntries <-
             Database.getContextEntries (current_date now) id0 None ;;
           analysis <-
             AIService.analyzeTasks answer_analysis render tasks0 contextEntries ;;
           ret (Json analysis)
     | None => ret (JsonError "Valid userId required" 400)
     end)
    (fun _ => ret (JsonError "Failed to analyze tasks" 500)).

End AnalyzeRoute.

Module RecommendationsRoute.

(** [POST /api/ai/recommendations]. *)
Definition POST (ai : Service) (now : timestamp) (userId : option Z)
  : M (response (list Recommendation)) :=
  try_catch
    (match userId with
     | Some id0 =>
         if negb (JS.truthy_number id0)
         then ret (JsonError "Valid userId required" 400)
         else
           tasks0 <- Database.getTasks id0 ;;
           contextEntries <-
             Database.getContextEntries (current_date now) id0 None ;;
           recommendations <- AIService.recommendTasks ai contextEntries tasks0 ;;
           ret (Json recommendations)
     | None => ret (JsonError "Valid userId required" 400)
     end)
    (fun _ => ret (JsonError "Failed to get recommendations" 500)).

End RecommendationsRoute.

(** ** Components *)

Module DashboardStats.

Definition totalTasks (tasks : list Task) : nat := List.length tasks.

Definition completedTasks (tasks : list Task) : nat :=
  List.length (filter (fun task => String.eqb (status task) completed) tasks).

Definition pendingTasks (tasks : list Task) : nat :=
  List.length (filter (fun task => String.eqb (status task) pending) tasks).

Definition inProgressTasks (tasks : list Task) : nat :=
  List.length (filter (fun task => String.eqb (status task) in_progress) tasks).

Definition highPriorityTasks (tasks : list Task) : nat :=
  List.length
    (filter (fun task => (priority task =? 1)
                         && negb (String.eqb (status task) completed)) tasks).

(** [task.deadline && new Date(task.deadline) < new Date() &&
    task.status !== "completed"], at the instant [now]: the deadline of a
    row is [null] or the text of its instant, which is not empty. *)
Definition overdueTasks (now : timestamp) (tasks : list Task) : nat :=
  List.length
    (filter (fun task =>
               match deadline task with
               | Some d => (d <? now)
                           && negb (String.eqb (status task) completed)
               | None => false
               end) tasks).

End DashboardStats.

Module TaskList.

(** The [variants] table: the badge variant and the label of a priority;
    [None] is the [undefined] of a key the table does not have. *)
Definition variants (p : Z) : option (string * string) :=
  if p =? 1 then Some ("destructive", "High")
  else if p =? 2 then Some ("secondary", "Medium")
  else if p =? 3 then Some ("outline", "Low")
  else None.

(** What [getPriorityBadge] renders: the label of the priority and, beside
    it, the label of the suggestion when there is one and it differs.
    [None] is the TypeError of [current.variant] on a priority that the
    table does not have. *)
Definition getPriorityBadge (priority0 : Z) (aiSuggested : option Z)
  : option (string * option string) :=
  let current := variants priority0 in
  let suggested :=
    if JS.truthy JS.truthy_number aiSuggested
    then match aiSuggested with
         | Some a => variants a
         | None => None
         end
    else None in
  match current with
  | None => None
  | Some (_, label) =>
      Some (label,
            match suggested, aiSuggested with
            | Some (_, ai_label), Some a =>
                if negb (a =? priority0) then Some ai_label else None
            | _, _ => None
            end)
  end.

End TaskList.

Module AIInsights.

(** The body [createTaskFromRecommendation] posts to [/api/tasks].  It also
    carries [context_tags], a key that [PostBody] does not have and the
    handler does not read. *)
Definition recommendation_body (userId : Z) (recommendation : Recommendation)
  : PostBody :=
  {| b_userId := Some userId;
     b_title := Some (r_title recommendation);
     b_description := Some (r_description recommendation);
     b_priority := Some (r_priority recommendation);
     b_status := None;
     b_deadline := None;
     b_completed_at := None;
     b_useAI := Some false;
     b_naturalLanguage := None |}.

End AIInsights.

(** ** Sequences of calls to the task endpoints *)

Inductive call : Type :=
| CallPOST (body : PostBody)
| CallPUT (taskId : Z) (body : PutBody)
| CallDELETE (taskId : Z).

Definition answer_call (ai : Service) (w : World) (c : timestamp * call) : World :=
  match c with
  | (now, CallPOST body) => fst (POST ai now body w)
  | (now, CallPUT taskId body) => fst (PUT now taskId body w)
  | (_, CallDELETE taskId) => fst (DELETE taskId w)
  end.

Definition answer_calls (ai : Service) (cs : list (timestamp * call)) (w : World)
  : World :=
  fold_left (answer_call ai) cs w.

(** The ids of the stored Tasks are distinct and none is above the sequence. *)
Definition well_keyed (w : World) : Prop :=
  NoDup (map id (tasks (db w)))
  /\ (forall t, In t (tasks (db w)) -> id t <= tasks_id_seq (db w)).

(** Sample data for the endpoints above. *)
Module Sample2.

Definition render : Render :=
  {| show_number := fun n => if n =? 1 then "1" else if n =? 2 then "2" else "3";
     show_timestamp := fun _ => "2024-01-05T00:00:00Z" |}.

(** An analysis service that is down. *)
Definition no_analysis : nat -> string -> reply Analysis := fun _ _ => Unavailable.

(** An analysis service that answers. *)
Definition busy_week : nat -> string -> reply Analysis :=
  fun _ _ =>
    Answer {| workloadAssessment := "heavy";
              priorityDistribution := "mostly high";
              schedulingInsights := "two deadlines on Friday";
              managementSuggestions := ["start with the report"] |}.

(** A recommendation service whose first request fails and whose second
    is answered. *)
Definition flaky : Service :=
  {| answer_suggestion := fun _ _ => Refused;
     answer_parse := fun _ _ => Refused;
     answer_recommendations := fun n _ =>
       match n with
       | O => Unavailable
       | S _ => Answer []
       end |}.

Definition note_body : ContextBody :=
  {| cb_userId := Some 1; cb_content := Some "standup at ten";
     cb_entryType := Some "note"; cb_entryDate := None |}.

Definition follow_up : Recommendation :=
  {| r_title := "Send the minutes"; r_description := "after the standup";
     r_priority := inject_Z 1; r_reasoning := "asked in the meeting";
     r_contextTags := ["work"] |}.

(** Well-formed data for [createTask], with an empty description and an
    empty deadline. *)
Definition call_data : TaskData :=
  {| td_user_id := 1; td_title := "Call the bank"; td_description := Some "";
     td_priority := inject_Z 2; td_status := pending;
     td_deadline := Some JS.Blank;
     td_ai_suggested_priority := Some (inject_Z 2);
     td_ai_suggested_deadline := Some (JS.Written 900);
     td_context_tags := Some ["money"]; td_completed_at := None |}.

End Sample2.

(** * Facts about ORDER BY *)

Section OrderingFacts.
Context {A : Type}.

Lemma asc_weak_order (k : A -> Z) : SQL.weak_order (SQL.asc k).
Proof.
  split; unfold SQL.asc; intros.
  - apply Z.compare_antisym.
  - rewrite Z.compare_lt_iff in *. lia.
  - apply Z.compare_eq in H. now rewrite H.
Qed.

Lemma desc_weak_order (k : A -> Z) : SQL.weak_order (SQL.desc k).
Proof.
  split; unfold SQL.desc; intros.
  - apply Z.compare_antisym.
  - rewrite Z.compare_lt_iff in *. lia.
  - apply Z.compare_eq in H. now rewrite H.
Qed.

Lemma asc_nulls_last_weak_order (k : A -> option Z) :
  SQL.weak_order (SQL.asc_nulls_last k).
Proof.
  split; unfold SQL.asc_nulls_last; intros a b.
  - destruct (k a), (k b); simpl; auto using Z.compare_antisym.
  - intros d. destruct (k a), (k b), (k d); try discriminate; auto.
    rewrite !Z.compare_lt_iff. lia.
  - intros d. destruct (k a), (k b); try discriminate; auto.
    intros H. apply Z.compare_eq in H. now subst.
Qed.

Lemma order_by_weak_order (keys : list (SQL.ordering (A := A))) :
  Forall SQL.weak_order keys -> SQL.weak_order (SQL.order_by keys).
Proof.
  induction 1 as [| c rest Hc _ IH].
  - split; simpl; intros; auto; discriminate.
  - destruct Hc as [Sc Lc Ec], IH as [Sr Lr Er].
    split; simpl.
    + intros a b. rewrite (Sc a b).
      destruct (c a b); simpl; auto.
    + intros a b d Hab Hbd.
      destruct (c a b) eqn:Eab; try discriminate;
        destruct (c b d) eqn:Ebd; try discriminate.
      * rewrite (Ec a b d Eab), Ebd. eauto.
      * now rewrite (Ec a b d Eab), Ebd.
      * assert (Hda : c d a = Gt).
        { assert (Hdb : c d b = Eq) by (rewrite (Sc b d), Ebd; reflexivity).
          rewrite (Ec d b a Hdb), (Sc a b), Eab. reflexivity. }
        rewrite (Sc d a), Hda. reflexivity.
      * now rewrite (Lc a b d Eab Ebd).
    + intros a b d Hab.
      destruct (c a b) eqn:Eab; try discriminate.
      rewrite (Ec a b d Eab).
      destruct (c b d); auto.
Qed.

Variable c : SQL.ordering (A := A).
Hypothesis c_weak : SQL.weak_order c.

Local Abbreviation le := (SQL.not_after c).

Lemma precedes_false_lt (a b : A) : SQL.precedes c a b = false -> c b a = Lt.
Proof.
  unfold SQL.precedes. intros H.
  rewrite (SQL.wo_sym c c_weak a b).
  destruct (c a b); try discriminate. reflexivity.
Qed.

Lemma le_trans (a b d : A) : le a b -> le b d -> le a d.
Proof.
  destruct c_weak as [Sc Lc Ec]. unfold SQL.not_after. intros Hab Hbd.
  destruct (c a b) eqn:Eab; try congruence.
  - now rewrite (Ec a b d Eab).
  - destruct (c b d) eqn:Ebd; try congruence.
    + assert (Hdb : c d b = Eq) by (rewrite (Sc b d), Ebd; reflexivity).
      assert (Hda : c d a = Gt) by (rewrite (Ec d b a Hdb), (Sc a b), Eab; reflexivity).
      rewrite (Sc d a), Hda. discriminate.
    + rewrite (Lc a b d Eab Ebd). discriminate.
Qed.

Lemma insert_perm (x : A) (l : list A) : Permutation (SQL.insert c x l) (x :: l).
Proof.
  induction l as [| y l IH]; simpl.
  - apply Permutation_refl.
  - destruct (SQL.precedes c x y).
    + apply Permutation_refl.
    + apply Permutation_trans with (y :: x :: l).
      * now apply perm_skip.
      * apply perm_swap.
Qed.

Lemma sort_perm (l : list A) : Permutation (SQL.sort c l) l.
Proof.
  induction l as [| x l IH]; simpl.
  - apply perm_nil.
  - apply Permutation_trans with (x :: SQL.sort c l).
    + apply insert_perm.
    + now apply perm_skip.
Qed.

Lemma insert_sorted (x : A) (l : list A) :
  StronglySorted le l -> StronglySorted le (SQL.insert c x l).
Proof.
  induction 1 as [| y l Hl IH Hy]; simpl.
  - constructor; constructor.
  - destruct (SQL.precedes c x y) eqn:E.
    + assert (Hxy : le x y).
      { unfold SQL.not_after, SQL.precedes in *. destruct (c x y); congruence. }
      constructor.
      * now constructor.
      * constructor; auto.
        eapply Forall_impl; [| exact Hy].
        intros z Hz. now apply le_trans with y.
    + constructor; auto.
      apply precedes_false_lt in E.
      assert (Hyx : le y x) by (unfold SQL.not_after; congruence).
      eapply Permutation_Forall.
      * apply Permutation_sym, insert_perm.
      * now constructor.
Qed.

Lemma sort_sorted (l : list A) : StronglySorted le (SQL.sort c l).
Proof.
  induction l as [| x l IH]; simpl.
  - constructor.
  - now apply insert_sorted.
Qed.

End OrderingFacts.

Lemma StronglySorted_impl {A} (R R' : A -> A -> Prop) (l : list A) :
  (forall a b, R a b -> R' a b) -> StronglySorted R l -> StronglySorted R' l.
Proof.
  intros HR. induction 1 as [| x l _ IH Hx]; constructor; auto.
  eapply Forall_impl; [| exact Hx]. auto.
Qed.

(** * getTasks *)

Lemma tasks_order_weak : SQL.weak_order Database.tasks_order.
Proof.
  apply order_by_weak_order.
  repeat apply Forall_cons; try apply Forall_nil.
  - apply asc_weak_order.
  - apply asc_weak_order.
  - apply asc_nulls_last_weak_order.
  - apply desc_weak_order.
Qed.

(** The keys of the ORDER BY clause say what the specification says. *)
Lemma tasks_order_listed_before (a b : Task) :
  SQL.not_after Database.tasks_order a b -> listed_before a b.
Proof.
  unfold SQL.not_after, Database.tasks_order, listed_before, deadline_before,
    is_completed, SQL.asc, SQL.desc, SQL.asc_nulls_last.
  simpl.
  destruct (String.eqb (status a) completed), (String.eqb (status b) completed);
    simpl; try (intros H; left; now split); try (intros H; now elim H).
  all: intros H; right; split; [reflexivity |].
  all: destruct (Z.compare_spec (priority a) (priority b)) as [Hp | Hp | Hp];
    try (now left); try (now elim H).
  all: right; split; [exact Hp |].
  all: destruct (deadline a) as [x |], (deadline b) as [y |];
    try (now left); try (now elim H).
  all: try destruct (Z.compare_spec x y) as [Hd | Hd | Hd];
    try (now left); try (now elim H).
  all: right; split; [congruence |].
  all: destruct (Z.compare_spec (created_at b) (created_at a));
    try lia; now elim H.
Qed.

(** C3. For every user and every stored set of Tasks, [getTasks] returns all
    of the user's Tasks (a permutation of the rows of that user), leaves the
    store as it is, and lists them so that each Task may be listed before
    every later one: non-completed before completed, then ascending
    priority, then ascending deadline with missing deadlines last, then
    descending creation time.  In particular no completed Task comes before
    a non-completed one, and among Tasks of the same completion bucket the
    priority never decreases. *)
Theorem getTasks_ordered (userId : Z) (w : World) :
  exists result,
    Database.getTasks userId w = (w, Returned result)
    /\ Permutation result (filter (fun t => user_id t =? userId) (tasks (db w)))
    /\ StronglySorted listed_before result
    /\ StronglySorted (fun a b => is_completed a = true -> is_completed b = true)
                      result
    /\ StronglySorted (fun a b => is_completed a = is_completed b ->
                                  priority a <= priority b) result.
Proof.
  eexists. split; [reflexivity |].
  set (rows := filter _ _).
  assert (Hsorted : StronglySorted listed_before (SQL.sort Database.tasks_order rows)).
  { eapply StronglySorted_impl; [exact tasks_order_listed_before |].
    apply sort_sorted, tasks_order_weak. }
  split; [apply sort_perm |].
  split; [exact Hsorted |].
  split; (eapply StronglySorted_impl; [| exact Hsorted]);
    unfold listed_before; intros a b H.
  - intros Ha. destruct H as [[H _] | [H _]]; congruence.
  - intros Hab. destruct H as [[H1 H2] | [_ H]]; [congruence |].
    destruct H as [H | [H _]]; lia.
Qed.

(** On the seed data: the two high-priority tasks by deadline, then medium,
    then the low ones by deadline, and the completed task last although its
    priority is 2 and its deadline the earliest. *)
Example getTasks_seed :
  match Database.getTasks 1 Sample.seed with
  | (_, Returned result) => map id result = [2; 1; 3; 4; 5; 6]
  | _ => False
  end.
Proof. reflexivity. Qed.

(** * getContextEntries *)

(** The store rejects the statement of [getContextEntries] on every call:
    it binds two values to a text with one parameter. *)
Lemma getContextEntries_rejected (today : date) (userId : Z) (days : option Z)
      (w : World) :
  Database.getContextEntries today userId days w = (w, Thrown StoreError).
Proof. reflexivity. Qed.

(** C8 at the scenario of the specification.  With entries dated today, 3
    days ago and 10 days ago, a 7-day window (given, or by default) does not
    return the first two: the call throws, as it does for every user and
    every window, because the statement binds [userId] and [days] while its
    text, where [days] sits inside the quotes of the interval, has one
    parameter. *)
Theorem getContextEntries_window_rejected :
  SQL.parameters Database.context_statement = 1%nat
  /\ SQL.bound_values Database.context_statement = 2%nat
  /\ map entry_date (context_entries (db Sample.three_entries)) = [90; 97; 100]
  /\ Database.getContextEntries 100 1 (Some 7) Sample.three_entries
     = (Sample.three_entries, Thrown StoreError)
  /\ Database.getContextEntries 100 1 None Sample.three_entries
     = (Sample.three_entries, Thrown StoreError).
Proof. repeat split. Qed.

(** * Truthiness *)

Lemma truthy_number_nonzero (n : Z) : n <> 0 -> JS.truthy_number n = true.
Proof.
  unfold JS.truthy_number. intros H.
  apply negb_true_iff. now apply Z.eqb_neq.
Qed.

Lemma truthy_string_nonempty (s : string) : s <> "" -> JS.truthy_string s = true.
Proof.
  unfold JS.truthy_string. intros H.
  apply negb_true_iff. now apply String.eqb_neq.
Qed.

(** * recommendTasks *)

(** C7. Whatever the existing tasks, [recommendTasks] called with no context
    entry returns the empty sequence and leaves the world as it is: the
    count of calls to the completion service does not move. *)
Theorem recommendTasks_no_context (ai : Service) (existingTasks : list Task)
        (w : World) :
  AIService.recommendTasks ai [] existingTasks w = (w, Returned [])
  /\ ai_calls (fst (AIService.recommendTasks ai [] existingTasks w)) = ai_calls w.
Proof.
  assert (E : JS.join AIService.nl (map AIService.entry_line []) = "")
    by reflexivity.
  unfold AIService.recommendTasks. rewrite E.
  split; reflexivity.
Qed.

Lemma entry_line_nonempty (e : ContextEntry) : AIService.entry_line e <> "".
Proof.
  unfold AIService.entry_line. destruct (entry_type e); simpl; discriminate.
Qed.

Lemma join_nonempty (sep x : string) (xs : list string) :
  x <> "" -> JS.join sep (x :: xs) <> "".
Proof.
  unfold JS.join. intros H. simpl. destruct xs; [exact H |].
  destruct x; [now elim H | simpl; discriminate].
Qed.

(** * generateObject *)

Section Requests.
Context {A : Type}.
Variable answer : nat -> string -> reply A.
Variable schema : A -> bool.
Variable prompt : string.

(** The gateway does not touch the store. *)
Lemma attempt_db (retries : nat) (w : World) :
  db (fst (AIService.attempt retries answer schema prompt w)) = db w.
Proof.
  revert w. induction retries as [| n IH]; intros w; simpl;
    destruct (answer (ai_calls w) prompt); try reflexivity.
  rewrite IH. reflexivity.
Qed.

(** It sends one request at least, and one more than it has retries at most. *)
Lemma attempt_calls (retries : nat) (w : World) :
  (ai_calls w < ai_calls (fst (AIService.attempt retries answer schema prompt w))
   <= ai_calls w + S retries)%nat.
Proof.
  revert w. induction retries as [| n IH]; intros w; simpl;
    destruct (answer (ai_calls w) prompt); simpl; try lia.
  specialize (IH {| db := db w; ai_calls := S (ai_calls w) |}).
  simpl in IH. lia.
Qed.

(** A first request that does not fail in the way that is retried is the
    only one. *)
Lemma attempt_once (retries : nat) (w : World) :
  answer (ai_calls w) prompt <> Unavailable ->
  ai_calls (fst (AIService.attempt retries answer schema prompt w))
  = S (ai_calls w).
Proof.
  intros H. destruct retries; simpl;
    destruct (answer (ai_calls w) prompt); try reflexivity; now elim H.
Qed.

(** What it returns has passed the schema; anything else is thrown. *)
Lemma attempt_outcome (retries : nat) (w : World) :
  match snd (AIService.attempt retries answer schema prompt w) with
  | Returned object => schema object = true
  | Thrown e => e = AIServiceError
  end.
Proof.
  revert w. induction retries as [| n IH]; intros w; simpl;
    destruct (answer (ai_calls w) prompt) as [object | |]; simpl;
    try reflexivity; try (destruct (schema object) eqn:E; auto).
  apply IH.
Qed.

End Requests.

(** * deleteTask *)

Lemma filter_other_ids (i : Z) (l : list Task) :
  (forall t, In t l -> id t <> i) ->
  filter (fun r => negb (id r =? i)) l = l.
Proof.
  induction l as [| r l IH]; simpl; intros H; [reflexivity |].
  destruct (Z.eqb_spec (id r) i) as [E | E]; simpl.
  - exfalso. apply (H r); auto.
  - f_equal. apply IH. intros t Ht. apply H. auto.
Qed.

Lemma deleteTask_absent (i : Z) (w : World) :
  SQL.int4 i = true -> absent i w -> Database.deleteTask i w = (w, Returned tt).
Proof.
  unfold absent, Database.deleteTask. intros Hi H. rewrite Hi.
  rewrite (filter_other_ids i _ H).
  destruct w as [[ts ces seq] n]. reflexivity.
Qed.

Lemma deleteTask_removes (i : Z) (w : World) :
  SQL.int4 i = true -> absent i (fst (Database.deleteTask i w)).
Proof.
  unfold absent, Database.deleteTask. intros Hi. rewrite Hi. simpl. intros t Ht.
  apply filter_In in Ht. destruct Ht as [_ Ht].
  apply negb_true_iff in Ht. now apply Z.eqb_neq.
Qed.

(** A number that is no value of the column [id]: the store rejects the
    statement, nothing is deleted and the endpoint answers 500. *)
Lemma deleteTask_out_of_range (i : Z) (w : World) :
  SQL.int4 i = false ->
  Database.deleteTask i w = (w, Thrown StoreError)
  /\ DELETE i w = (w, Returned (JsonError "Failed to delete task" 500)).
Proof.
  intros Hi. unfold DELETE, try_catch, bind, Database.deleteTask.
  rewrite Hi. split; reflexivity.
Qed.

(** C9. [deleteTask] is idempotent: for every id of the column, when no
    Task has the id, the call (and the DELETE endpoint above it) succeeds
    and leaves the store unchanged; this is the case of a second call right
    after a first one, whatever the store was before. *)
Theorem deleteTask_idempotent (i : Z) (w : World) :
  SQL.int4 i = true ->
  (absent i w ->
   Database.deleteTask i w = (w, Returned tt)
   /\ DELETE i w = (w, Returned (Json true)))
  /\ (let w1 := fst (Database.deleteTask i w) in
      Database.deleteTask i w1 = (w1, Returned tt)
      /\ DELETE i w1 = (w1, Returned (Json true))).
Proof.
  intros Hi.
  assert (H : forall v, absent i v ->
                        Database.deleteTask i v = (v, Returned tt)
                        /\ DELETE i v = (v, Returned (Json true))).
  { intros v Hv. pose proof (deleteTask_absent i v Hi Hv) as E. split; [exact E |].
    unfold DELETE, try_catch, bind. rewrite E. reflexivity. }
  split.
  - apply H.
  - apply H, deleteTask_removes, Hi.
Qed.

Lemma deleteTask_idempotent_witness :
  SQL.int4 7 = true
  /\ absent 7 Sample.one_task
  /\ Database.deleteTask 7 Sample.one_task = (Sample.one_task, Returned tt)
  /\ tasks (db (fst (Database.deleteTask 1 Sample.one_task))) = []
  /\ Database.deleteTask 1 (fst (Database.deleteTask 1 Sample.one_task))
     = (fst (Database.deleteTask 1 Sample.one_task), Returned tt).
Proof.
  assert (Ha : absent 7 Sample.one_task).
  { intros t [Ht | []]. subst t. simpl. lia. }
  split; [reflexivity |]. split; [exact Ha |]. split; [| split].
  - exact (proj1 (proj1 (deleteTask_idempotent 7 Sample.one_task eq_refl) Ha)).
  - reflexivity.
  - exact (proj1 (proj2 (deleteTask_idempotent 1 Sample.one_task eq_refl))).
Defined.

(** * updateTask *)

(** The statement depends on [updates] through the names of its defined
    entries only: two updates that define the same keys give one statement,
    whatever their values. *)
Lemma update_statement_names (i : Z) (u1 u2 : TaskUpdates) :
  (forall c, Database.defined u1 c = Database.defined u2 c) ->
  Database.update_statement i u1 = Database.update_statement i u2.
Proof.
  intros H. unfold Database.update_statement, Database.setClause.
  f_equal. apply filter_ext. exact H.
Qed.

(** The store rejects the statement of every update: with an item for the
    value it does not have, with none for the comma the template leaves. *)
Lemma updateTask_rejected (now : timestamp) (i : Z) (updates : TaskUpdates)
      (w : World) :
  Database.updateTask now i updates w = (w, Thrown StoreError).
Proof.
  unfold Database.updateTask, bind, Database.execute_update,
    Database.update_statement. simpl.
  destruct (Database.setClause updates); reflexivity.
Qed.

Lemma PUT_rejected (now : timestamp) (taskId : Z) (body : PutBody) (w : World) :
  PUT now taskId body w = (w, Returned (JsonError "Failed to update task" 500)).
Proof.
  unfold PUT, try_catch, bind at 1.
  rewrite updateTask_rejected. reflexivity.
Qed.

(** A title, a description, a priority, a status or a deadline in the body
    of PUT puts an item in the clause. *)
Lemma put_updates_items (now : timestamp) (body : PutBody) :
  Database.setClause (put_updates now body) = []
  <-> (pb_title body = None /\ pb_description body = None
       /\ pb_priority body = None /\ pb_status body = None
       /\ pb_deadline body = None).
Proof.
  unfold Database.setClause, put_updates. destruct body as [t d p s dl]. simpl.
  split.
  - destruct t, d, p, s, dl; simpl; try discriminate; auto.
  - intros (-> & -> & -> & -> & ->). reflexivity.
Qed.

(** What the handler of PUT asks for: a stamp when the body sets the status
    to [completed], and no assignment of [completed_at] otherwise. *)
Lemma put_updates_completed_at (now : timestamp) (body : PutBody) :
  u_completed_at (put_updates now body)
  = if JS.truthy (fun s => String.eqb s completed) (pb_status body)
    then Some (JS.Written now) else None.
Proof.
  unfold put_updates. simpl. destruct (pb_status body) as [s |]; reflexivity.
Qed.

(** C4 at an update of the title alone of a stored Task.  The statement is
    the same for any two titles: the new title is no part of it.  The store
    has no value for the item and rejects the statement, so the title is
    not applied, [updated_at] is not refreshed, and the PUT endpoint answers
    with an error. *)
Theorem updateTask_drops_values :
  Database.update_statement 1 (Sample.only_title "Pay the rent")
  = Database.update_statement 1 (Sample.only_title "Call the bank")
  /\ Database.updateTask 50 1 (Sample.only_title "Pay the rent") Sample.one_task
     = (Sample.one_task, Thrown StoreError)
  /\ PUT 50 1 (Sample.title_body "Pay the rent") Sample.one_task
     = (Sample.one_task, Returned (JsonError "Failed to update task" 500)).
Proof. repeat split. Qed.




(** * POST /api/tasks *)

(** The row of the [taskData] that the handler first builds. *)
Lemma inserted_initial (now : timestamp) (seq userId : Z) (title0 : string)
      (description0 : option string) :
  Database.inserted_row now seq (initial_taskData userId title0 description0)
  = Some {| id := seq + 1;
            user_id := userId;
            title := title0;
            description :=
              JS.or_null JS.truthy_string
                (Some (JS.or_else JS.truthy_string description0 ""));
            priority := 3;
            status := pending;
            deadline := None;
            ai_suggested_priority := None;
            ai_suggested_deadline := None;
            context_tags := Some [];
            created_at := now;
            updated_at := now;
            completed_at := None |}.
Proof. reflexivity. Qed.

(** With [useAI] or [naturalLanguage] the handler first reads the context,
    and the read throws. *)
Lemma POST_with_AI (ai : Service) (now : timestamp) (body : PostBody) (w : World)
      (userId : Z) (title0 : string) :
  b_userId body = Some userId -> userId <> 0 ->
  b_title body = Some title0 -> title0 <> "" ->
  JS.default_to (b_useAI body) false
  || JS.default_to (b_naturalLanguage body) false = true ->
  POST ai now body w = (w, Returned (JsonError "Failed to create task" 500)).
Proof.
  intros Hu Hu0 Ht Ht0 Hai.
  unfold POST, try_catch. rewrite Hu, Ht, Hai.
  rewrite (truthy_number_nonzero _ Hu0), (truthy_string_nonempty _ Ht0).
  cbn [negb orb]. unfold bind at 1 2.
  rewrite getContextEntries_rejected. reflexivity.
Qed.

(** Every run of the handler either answers with an error, writes nothing
    and sends nothing to the service, or inserts one row, with priority 3,
    the status [pending] and no suggestion, and answers with that row,
    again with nothing sent to the service. *)
Lemma POST_cases (ai : Service) (now : timestamp) (body : PostBody) (w : World) :
  (exists message code,
      POST ai now body w = (w, Returned (JsonError message code)))
  \/ (exists row,
         POST ai now body w = (after_insert w (ai_calls w) row, Returned (Json row))
         /\ id row = tasks_id_seq (db w) + 1
         /\ priority row = 3
         /\ status row = pending
         /\ completed_at row = None
         /\ ai_suggested_priority row = None).
Proof.
  destruct (b_userId body) as [userId |] eqn:Hu;
    [| left; do 2 eexists; unfold POST, try_catch; rewrite Hu; reflexivity].
  destruct (b_title body) as [title0 |] eqn:Ht;
    [| left; do 2 eexists; unfold POST, try_catch; rewrite Hu, Ht; reflexivity].
  destruct (negb (JS.truthy_number userId) || negb (JS.truthy_string title0))
    eqn:Hguard;
    [left; do 2 eexists; unfold POST, try_catch; rewrite Hu, Ht, Hguard;
     reflexivity |].
  destruct (JS.default_to (b_useAI body) false
            || JS.default_to (b_naturalLanguage body) false) eqn:Hai.
  - left. do 2 eexists.
    unfold POST, try_catch. rewrite Hu, Ht, Hguard, Hai.
    unfold bind at 1 2. rewrite getContextEntries_rejected. reflexivity.
  - right. eexists.
    unfold POST, try_catch. rewrite Hu, Ht, Hguard, Hai.
    unfold bind, ret, Database.createTask. rewrite inserted_initial.
    split; [reflexivity |]. repeat split.
Qed.

(** What the handler does without AI, whatever [priority] the body carries:
    title and description are the caller's (an empty description is stored
    as NULL), the priority is 3, and neither deadline nor AI field is set. *)
Lemma POST_plain (ai : Service) (now : timestamp) (body : PostBody) (w : World)
      (userId : Z) (title0 : string) :
  b_userId body = Some userId -> userId <> 0 ->
  b_title body = Some title0 -> title0 <> "" ->
  JS.default_to (b_useAI body) false = false ->
  JS.default_to (b_naturalLanguage body) false = false ->
  exists t,
    POST ai now body w = (after_insert w (ai_calls w) t, Returned (Json t))
    /\ user_id t = userId
    /\ title t = title0
    /\ description t = JS.or_null JS.truthy_string (b_description body)
    /\ priority t = 3
    /\ status t = pending
    /\ deadline t = None
    /\ ai_suggested_priority t = None
    /\ ai_suggested_deadline t = None
    /\ completed_at t = None.
Proof.
  intros Hu Hu0 Ht Ht0 Hai Hnl.
  unfold POST, try_catch, bind.
  rewrite Hu, Ht, Hai, Hnl.
  rewrite (truthy_number_nonzero _ Hu0), (truthy_string_nonempty _ Ht0).
  cbn [negb orb]. unfold ret, Database.createTask. rewrite inserted_initial.
  eexists. split; [reflexivity |]. simpl.
  repeat split.
  destruct (b_description body) as [d |]; simpl; [| reflexivity].
  destruct (JS.truthy_string d) eqn:E; simpl; [now rewrite E | reflexivity].
Qed.

(** C1 at the form's request with AI off and priority High: the handler
    never reads [priority] from the body, and the stored Task has priority
    3, not the caller's 1. *)
Theorem POST_plain_ignores_priority :
  b_priority Sample.plain_high = Some (inject_Z 1)
  /\ POST Sample.silent 20 Sample.plain_high Sample.empty_world
     = ({| db := {| tasks :=
                      [ {| id := 1; user_id := 1; title := "Pay rent";
                           description := None; priority := 3;
                           status := pending; deadline := None;
                           ai_suggested_priority := None;
                           ai_suggested_deadline := None;
                           context_tags := Some [];
                           created_at := 20; updated_at := 20;
                           completed_at := None |} ];
                    context_entries := [];
                    tasks_id_seq := 1 |};
           ai_calls := 0 |},
        Returned (Json {| id := 1; user_id := 1; title := "Pay rent";
                          description := None; priority := 3;
                          status := pending; deadline := None;
                          ai_suggested_priority := None;
                          ai_suggested_deadline := None;
                          context_tags := Some [];
                          created_at := 20; updated_at := 20;
                          completed_at := None |})).
Proof. split; reflexivity. Qed.

(** C6 at the scenario of the specification: a request with [useAI] true
    and a service that suggests priority 1 and a deadline.  Asked, the
    gateway returns that suggestion; the handler does not get as far as
    asking.  It first reads the user's context, the read throws (see
    [getContextEntries_rejected]), and the handler answers 500: no Task is
    stored, with or without the suggestion, and no request is sent to the
    service. *)
Theorem POST_suggestion_not_stored :
  b_useAI Sample.suggest_body = Some true
  /\ AIService.suggestTaskPriority Sample.urgent "Pay rent" None []
       Sample.empty_world
     = ({| db := db Sample.empty_world; ai_calls := 1 |},
        Returned {| s_priority := inject_Z 1;
                    s_deadline := Some (JS.Written 1000000);
                    s_reasoning := "due soon"; s_contextTags := ["work"] |})
  /\ Database.getContextEntries (current_date 20) 1 None Sample.empty_world
     = (Sample.empty_world, Thrown StoreError)
  /\ POST Sample.urgent 20 Sample.suggest_body Sample.empty_world
     = (Sample.empty_world, Returned (JsonError "Failed to create task" 500)).
Proof. repeat split. Qed.

(** C10. Whatever the body carries, and whichever of the three branches it
    asks for, a Task that the POST endpoint answers with is the row it
    appended to the store, its status is [pending] and its [completed_at]
    is unset. *)
Theorem POST_creates_pending (ai : Service) (now : timestamp) (body : PostBody)
        (w w' : World) (t : Task) :
  POST ai now body w = (w', Returned (Json t)) ->
  status t = pending
  /\ completed_at t = None
  /\ tasks (db w') = tasks (db w) ++ [t].
Proof.
  intros H.
  destruct (POST_cases ai now body w)
    as [(message & code & E) | (row & E & _ & _ & Hs & Hc & _)].
  - rewrite E in H. discriminate H.
  - rewrite E in H. injection H as Hw Ht. subst t w'.
    repeat split; assumption.
Qed.

Lemma POST_creates_pending_witness :
  b_status Sample.plain_completed = Some completed
  /\ b_completed_at Sample.plain_completed = Some (JS.Written 5)
  /\ exists t w',
      POST Sample.urgent 20 Sample.plain_completed Sample.empty_world
      = (w', Returned (Json t))
      /\ title t = "File the report"
      /\ status t = pending
      /\ completed_at t = None
      /\ tasks (db w') = tasks (db Sample.empty_world) ++ [t].
Proof.
  split; [reflexivity |]. split; [reflexivity |].
  eexists. eexists. split; [reflexivity |]. split; [reflexivity |].
  apply (POST_creates_pending Sample.urgent 20 Sample.plain_completed
           Sample.empty_world).
  reflexivity.
Defined.

(** * The Task invariant under POST and PUT *)





(** * More on POST /api/tasks *)

(** X1. A request without a user id (or with the id 0) or without a title
    (or with an empty one) is answered 400; nothing is written and the
    service is not called. *)
Theorem POST_rejects_missing_fields (ai : Service) (now : timestamp)
        (body : PostBody) (w : World) :
  JS.truthy JS.truthy_number (b_userId body) = false
  \/ JS.truthy JS.truthy_string (b_title body) = false ->
  POST ai now body w = (w, Returned (JsonError "User ID and title required" 400)).
Proof.
  unfold POST, try_catch. intros H.
  destruct (b_userId body) as [userId |], (b_title body) as [title0 |];
    simpl in H; try reflexivity.
  destruct H as [H | H]; rewrite H; simpl; [reflexivity |].
  rewrite orb_true_r. reflexivity.
Qed.

Lemma POST_rejects_missing_fields_witness :
  POST Sample.urgent 20
       {| b_userId := Some 1; b_title := Some ""; b_description := None;
          b_priority := None; b_status := None; b_deadline := None;
          b_completed_at := None; b_useAI := Some true;
          b_naturalLanguage := None |}
       Sample.one_task
  = (Sample.one_task, Returned (JsonError "User ID and title required" 400)).
Proof.
  apply POST_rejects_missing_fields. right. reflexivity.
Defined.

(** X2. A request for a suggestion ([useAI] true, [naturalLanguage] not) is
    answered 500 whatever the service would suggest: the read of the
    context throws before the gateway is asked, no Task is created, not
    even one without the suggestion, and no request is sent to the
    service. *)
Theorem POST_for_suggestion_fails (ai : Service) (now : timestamp)
        (body : PostBody) (w : World) (userId : Z) (title0 : string) :
  b_userId body = Some userId -> userId <> 0 ->
  b_title body = Some title0 -> title0 <> "" ->
  b_useAI body = Some true ->
  JS.default_to (b_naturalLanguage body) false = false ->
  POST ai now body w = (w, Returned (JsonError "Failed to create task" 500)).
Proof.
  intros Hu Hu0 Ht Ht0 Hai Hnl.
  apply (POST_with_AI ai now body w userId title0 Hu Hu0 Ht Ht0).
  rewrite Hai. reflexivity.
Qed.

Lemma POST_for_suggestion_fails_witness :
  POST Sample.urgent 20 Sample.suggest_body Sample.one_task
  = (Sample.one_task, Returned (JsonError "Failed to create task" 500)).
Proof.
  apply (POST_for_suggestion_fails Sample.urgent 20 Sample.suggest_body
           Sample.one_task 1 "Pay rent").
  - reflexivity.
  - lia.
  - reflexivity.
  - discriminate.
  - reflexivity.
  - reflexivity.
Defined.

(** X3. A request in natural language ([naturalLanguage] true, whether or
    not [useAI] is) is answered 500 whatever the service would parse out of
    the title: the read of the context throws before the gateway is asked,
    nothing is stored, and no request is sent to the service. *)
Theorem POST_natural_language_fails (ai : Service) (now : timestamp)
        (body : PostBody) (w : World) (userId : Z) (title0 : string) :
  b_userId body = Some userId -> userId <> 0 ->
  b_title body = Some title0 -> title0 <> "" ->
  b_naturalLanguage body = Some true ->
  POST ai now body w = (w, Returned (JsonError "Failed to create task" 500)).
Proof.
  intros Hu Hu0 Ht Ht0 Hnl.
  apply (POST_with_AI ai now body w userId title0 Hu Hu0 Ht Ht0).
  rewrite Hnl. apply orb_true_r.
Qed.

Lemma POST_natural_language_fails_witness :
  AIService.parseNaturalLanguageTask Sample.urgent
    "prepare slides for Friday review" [] Sample.empty_world
  = ({| db := db Sample.empty_world; ai_calls := 1 |},
     Returned {| p_title := "Prepare review slides"; p_description := "slides";
                 p_priority := inject_Z 1;
                 p_deadline := Some (JS.Written 1000000);
                 p_contextTags := ["work"] |})
  /\ POST Sample.urgent 20 Sample.natural_body Sample.empty_world
     = (Sample.empty_world, Returned (JsonError "Failed to create task" 500)).
Proof.
  split; [reflexivity |].
  apply (POST_natural_language_fails Sample.urgent 20 Sample.natural_body
           Sample.empty_world 1 "prepare slides for Friday review").
  - reflexivity.
  - lia.
  - reflexivity.
  - discriminate.
  - reflexivity.
Defined.

(** * Listing after a write *)

Section SortFilter.
Context {A : Type}.
Variable c : SQL.ordering (A := A).
Hypothesis c_weak : SQL.weak_order c.
Variable p : A -> bool.

Lemma insert_first (x : A) (l : list A) :
  Forall (SQL.not_after c x) l -> SQL.insert c x l = x :: l.
Proof.
  destruct l as [| y l]; [reflexivity |].
  intros H. apply Forall_inv in H. simpl.
  unfold SQL.not_after in H. unfold SQL.precedes.
  destruct (c x y); try reflexivity. now elim H.
Qed.

Lemma filter_insert (x : A) (l : list A) :
  StronglySorted (SQL.not_after c) l ->
  filter p (SQL.insert c x l)
  = if p x then SQL.insert c x (filter p l) else filter p l.
Proof.
  induction 1 as [| y l Hl IH Hy]; simpl.
  - destruct (p x); reflexivity.
  - destruct (SQL.precedes c x y) eqn:E; simpl.
    + destruct (p x) eqn:Px; [| reflexivity].
      assert (Hxy : SQL.not_after c x y).
      { unfold SQL.not_after, SQL.precedes in *. destruct (c x y); congruence. }
      symmetry. apply insert_first.
      destruct (p y).
      * constructor; [exact Hxy |].
        apply Forall_forall. intros z Hz. apply filter_In in Hz.
        apply (le_trans c c_weak x y z Hxy).
        rewrite Forall_forall in Hy. apply Hy. tauto.
      * apply Forall_forall. intros z Hz. apply filter_In in Hz.
        apply (le_trans c c_weak x y z Hxy).
        rewrite Forall_forall in Hy. apply Hy. tauto.
    + rewrite IH. destruct (p y), (p x); simpl; try reflexivity.
      now rewrite E.
Qed.

(** Sorting the rows that pass a test gives the sorted rows that pass it. *)
Lemma sort_filter (l : list A) :
  SQL.sort c (filter p l) = filter p (SQL.sort c l).
Proof.
  induction l as [| x l IH]; simpl; [reflexivity |].
  rewrite (filter_insert x _ (sort_sorted c c_weak l)).
  destruct (p x); simpl; now rewrite IH.
Qed.

End SortFilter.

Lemma filter_comm {A} (p q : A -> bool) (l : list A) :
  filter p (filter q l) = filter q (filter p l).
Proof.
  induction l as [| x l IH]; simpl; [reflexivity |].
  destruct (p x) eqn:Px, (q x) eqn:Qx; simpl; rewrite ?Px, ?Qx, IH; reflexivity.
Qed.

(** X4. After [deleteTask], [getTasks] lists for every user the Tasks it
    listed before without those of the deleted id: each of the others as
    many times as before, and none of that id.  This is for an id of the
    column; for any other number the statement is rejected, and the
    listing is what it was. *)
Theorem deleteTask_getTasks (i userId : Z) (w : World) :
  exists before after,
    Database.getTasks userId w = (w, Returned before)
    /\ Database.getTasks userId (fst (Database.deleteTask i w))
       = (fst (Database.deleteTask i w), Returned after)
    /\ Permutation after
         (if SQL.int4 i then filter (fun t => negb (id t =? i)) before else before)
    /\ (forall t, In t after <->
                  In t before /\ (SQL.int4 i = true -> id t <> i)).
Proof.
  eexists. eexists. split; [reflexivity |]. split; [reflexivity |].
  unfold Database.deleteTask. destruct (SQL.int4 i).
  - cbn [fst db tasks].
    rewrite filter_comm.
    rewrite (sort_filter Database.tasks_order tasks_order_weak).
    split; [apply Permutation_refl |].
    intros t. rewrite filter_In, negb_true_iff, Z.eqb_neq. tauto.
  - cbn [fst]. split; [apply Permutation_refl |].
    intros t. split; [intros H; split; [exact H | discriminate] | tauto].
Qed.

(** A number that an INTEGER column takes is the integer it is bound as. *)
Lemma integer_value (q : Q) (z : Z) :
  SQL.integer q = Some z -> (inject_Z z == q)%Q.
Proof.
  unfold SQL.integer.
  destruct (Z.eqb_spec (Qnum q mod Z.pos (Qden q)) 0) as [E |]; [| discriminate].
  destruct (SQL.int4 _); [| discriminate]. intros H. injection H as <-.
  unfold Qeq, inject_Z. simpl.
  rewrite Z.mul_1_r, Z.mul_comm. symmetry.
  apply Z.div_exact; [lia | exact E].
Qed.

Lemma read_written {A} (s : JS.text A) (a : A) :
  SQL.read s = Some a -> s = JS.Written a.
Proof. destruct s; simpl; congruence. Qed.

Lemma nullable_read {A} (x : option (JS.text A)) (y : option A) :
  SQL.nullable SQL.read x = Some y -> option_map JS.Written y = x.
Proof.
  destruct x as [s |]; simpl.
  - destruct (SQL.read s) as [a |] eqn:E; simpl; [| discriminate].
    intros H. injection H as <-. simpl. now rewrite (read_written s a E).
  - intros H. injection H as <-. reflexivity.
Qed.

(** X5. When [createTask] returns, it returns the row it stored: [getTasks]
    then lists for the owner what it listed before and that row, and for
    every other user what it listed before.  The row holds the data given:
    the priority is the integer that was given, an empty description, a
    suggested priority of 0 and an empty deadline text are stored as NULL
    (the [|| null] of the INSERT), a deadline is the instant its text
    reads as, and [completed_at] is NULL whatever was given. *)
Theorem createTask_getTasks (now : timestamp) (task : TaskData) (w w' : World)
        (t : Task) :
  Database.createTask now task w = (w', Returned t) ->
  exists before after,
    Database.getTasks (td_user_id task) w = (w, Returned before)
    /\ Database.getTasks (td_user_id task) w' = (w', Returned after)
    /\ Permutation after (t :: before)
    /\ user_id t = td_user_id task
    /\ title t = td_title task
    /\ description t = JS.or_null JS.truthy_string (td_description task)
    /\ (inject_Z (priority t) == td_priority task)%Q
    /\ status t = td_status task
    /\ option_map JS.Written (deadline t)
       = JS.or_null JS.truthy_text (td_deadline task)
    /\ match ai_suggested_priority t with
       | Some p => exists q,
           JS.or_null JS.truthy_rational (td_ai_suggested_priority task) = Some q
           /\ (inject_Z p == q)%Q
       | None =>
           JS.or_null JS.truthy_rational (td_ai_suggested_priority task) = None
       end
    /\ option_map JS.Written (ai_suggested_deadline t)
       = JS.or_null JS.truthy_text (td_ai_suggested_deadline task)
    /\ context_tags t = td_context_tags task
    /\ completed_at t = None
    /\ (forall other, other <> td_user_id task ->
                      snd (Database.getTasks other w')
                      = snd (Database.getTasks other w)).
Proof.
  unfold Database.createTask, Database.inserted_row.
  destruct (SQL.integer (td_priority task)) as [p |] eqn:Hp; [| discriminate].
  destruct (SQL.nullable SQL.read (JS.or_null JS.truthy_text (td_deadline task)))
    as [d |] eqn:Hd; [| discriminate].
  destruct (SQL.nullable SQL.integer
              (JS.or_null JS.truthy_rational (td_ai_suggested_priority task)))
    as [sp |] eqn:Hsp; [| discriminate].
  destruct (SQL.nullable SQL.read
              (JS.or_null JS.truthy_text (td_ai_suggested_deadline task)))
    as [sd |] eqn:Hsd; [| discriminate].
  intros H. injection H as Hw Ht. subst w' t.
  eexists. eexists. split; [reflexivity |]. split; [reflexivity |].
  split.
  { cbn [db tasks]. rewrite filter_app. cbn [filter user_id].
    rewrite Z.eqb_refl.
    eapply Permutation_trans; [apply sort_perm |].
    eapply Permutation_trans; [apply Permutation_app_comm |].
    simpl. apply perm_skip. apply Permutation_sym, sort_perm. }
  cbn [user_id title description priority status deadline ai_suggested_priority
       ai_suggested_deadline context_tags completed_at].
  split; [reflexivity |]. split; [reflexivity |]. split; [reflexivity |].
  split; [now apply integer_value |]. split; [reflexivity |].
  split; [now apply nullable_read |].
  split.
  { destruct (JS.or_null JS.truthy_rational (td_ai_suggested_priority task))
      as [q |]; simpl in Hsp.
    - destruct (SQL.integer q) as [z |] eqn:Hz; simpl in Hsp; [| discriminate].
      injection Hsp as <-. exists q. split; [reflexivity |].
      now apply integer_value.
    - injection Hsp as <-. reflexivity. }
  split; [now apply nullable_read |].
  split; [destruct (td_context_tags task); reflexivity |].
  split; [reflexivity |].
  intros other Ho. unfold Database.getTasks. cbn [snd db tasks].
  rewrite filter_app. cbn [filter user_id].
  destruct (Z.eqb_spec (td_user_id task) other) as [E | E];
    [now elim Ho | now rewrite app_nil_r].
Qed.

Lemma createTask_getTasks_witness :
  exists t w',
    Database.createTask 50 Sample2.call_data Sample.one_task = (w', Returned t)
    /\ description t = None
    /\ priority t = 2
    /\ deadline t = None
    /\ ai_suggested_deadline t = Some 900
    /\ exists before after,
        Database.getTasks 1 Sample.one_task = (Sample.one_task, Returned before)
        /\ Database.getTasks 1 w' = (w', Returned after)
        /\ Permutation after (t :: before).
Proof.
  eexists. eexists. split; [reflexivity |].
  split; [reflexivity |]. split; [reflexivity |]. split; [reflexivity |].
  split; [reflexivity |].
  destruct (createTask_getTasks 50 Sample2.call_data Sample.one_task _ _ eq_refl)
    as (before & after & Hb & Ha & Hp & _).
  exists before, after. exact (conj Hb (conj Ha Hp)).
Defined.

(** * Ids under the task endpoints *)

(** Rows left by a [WHERE] keep distinct ids. *)
Lemma ids_distinct_filter (keep : Task -> bool) (rows : list Task) :
  NoDup (map id rows) -> NoDup (map id (filter keep rows)).
Proof.
  induction rows as [| r rows IH]; simpl; intros H; [constructor |].
  apply NoDup_cons_iff in H. destruct H as [Hr Hrows].
  destruct (keep r); simpl; [| now apply IH].
  apply NoDup_cons; [| now apply IH].
  intros Hin. apply Hr.
  apply in_map_iff in Hin. destruct Hin as (z & Hz & Hin).
  apply filter_In in Hin. apply in_map_iff. exists z. tauto.
Qed.

Lemma POST_well_keyed (ai : Service) (now : timestamp) (body : PostBody)
      (w : World) :
  well_keyed w -> well_keyed (fst (POST ai now body w)).
Proof.
  intros [Hn Hb].
  destruct (POST_cases ai now body w)
    as [(message & code & E) | (row & E & Hid & _)].
  - rewrite E. split; [exact Hn | exact Hb].
  - rewrite E. unfold well_keyed. simpl. split.
    + rewrite map_app. simpl.
      apply Permutation_NoDup with (l := id row :: map id (tasks (db w))).
      * apply Permutation_cons_append.
      * constructor; [| exact Hn].
        intros Hin. apply in_map_iff in Hin. destruct Hin as (t & Ht & Hin).
        apply Hb in Hin. lia.
    + intros t Ht. apply in_app_or in Ht. destruct Ht as [Ht | [Ht | []]].
      * apply Hb in Ht. lia.
      * subst t. lia.
Qed.

Lemma DELETE_well_keyed (taskId : Z) (w : World) :
  well_keyed w -> well_keyed (fst (DELETE taskId w)).
Proof.
  intros [Hn Hb]. unfold DELETE, try_catch, bind, Database.deleteTask.
  destruct (SQL.int4 taskId); [| split; assumption].
  unfold well_keyed. simpl. split.
  - now apply ids_distinct_filter.
  - intros t Ht. apply filter_In in Ht. apply Hb. tauto.
Qed.

(** X6. Whatever calls to the POST, PUT and DELETE endpoints follow one
    another, the stored Tasks keep distinct ids and no id is above the
    sequence: an id given to a Task is never given again, also after the
    Task is deleted. *)
Theorem calls_keep_ids_distinct (ai : Service) (cs : list (timestamp * call))
        (w : World) :
  well_keyed w -> well_keyed (answer_calls ai cs w).
Proof.
  unfold answer_calls. revert w.
  induction cs as [| [now c] cs IH]; intros w Hw; simpl; [exact Hw |].
  apply IH. destruct c as [body | taskId body | taskId].
  - now apply POST_well_keyed.
  - rewrite PUT_rejected. exact Hw.
  - now apply DELETE_well_keyed.
Qed.

Lemma calls_keep_ids_distinct_witness :
  well_keyed Sample.one_task
  /\ well_keyed (answer_calls Sample.urgent
                   [ (20, CallPOST Sample.plain_completed);
                     (30, CallDELETE 2);
                     (40, CallPOST Sample.plain_high);
                     (50, CallPUT 1 (Sample.only_status completed)) ]
                   Sample.one_task)
  /\ map id (tasks (db (answer_calls Sample.urgent
                          [ (20, CallPOST Sample.plain_completed);
                            (30, CallDELETE 2);
                            (40, CallPOST Sample.plain_high);
                            (50, CallPUT 1 (Sample.only_status completed)) ]
                          Sample.one_task)))
     = [1; 3].
Proof.
  assert (Hw : well_keyed Sample.one_task).
  { split.
    - simpl. constructor; [intros [] | constructor].
    - intros t [Ht | []]. subst t. simpl. lia. }
  split; [exact Hw |]. split; [| reflexivity].
  exact (calls_keep_ids_distinct Sample.urgent _ Sample.one_task Hw).
Defined.

(** * More on PUT /api/tasks/[id] *)

(** X7. A PUT whose body gives a title, a description, a priority, a
    status or a deadline is answered 500, for a stored id as for a missing
    one, and the store is unchanged. *)
Theorem PUT_with_a_field_fails (now : timestamp) (taskId : Z) (body : PutBody)
        (w : World) :
  pb_title body <> None \/ pb_description body <> None
  \/ pb_priority body <> None \/ pb_status body <> None
  \/ pb_deadline body <> None ->
  PUT now taskId body w
  = (w, Returned (JsonError "Failed to update task" 500)).
Proof.
  intros H.
  assert (Hitems : Database.setClause (put_updates now body) <> []).
  { intros E. apply put_updates_items in E.
    destruct E as (E1 & E2 & E3 & E4 & E5).
    destruct H as [H | [H | [H | [H | H]]]]; now elim H. }
  unfold PUT, try_catch, bind at 1, Database.updateTask, bind,
    Database.execute_update, Database.update_statement.
  cbn [Database.set_items].
  destruct (Database.setClause (put_updates now body));
    [now elim Hitems | reflexivity].
Qed.

Lemma PUT_with_a_field_fails_witness :
  PUT 30 1 (Sample.only_status completed) Sample.one_task
  = (Sample.one_task, Returned (JsonError "Failed to update task" 500))
  /\ PUT 30 7 (Sample.only_status completed) Sample.one_task
     = (Sample.one_task, Returned (JsonError "Failed to update task" 500)).
Proof.
  split; apply PUT_with_a_field_fails; right; right; right; left; discriminate.
Defined.

(** X20. A PUT whose body gives none of the five fields is answered 500 as
    well and leaves the store unchanged: with no item before it, the comma
    that the template puts in front of [updated_at] makes the text no
    statement, so that [updated_at] is not refreshed either. *)
Theorem PUT_without_a_field_fails (now : timestamp) (taskId : Z) (body : PutBody)
        (w : World) :
  pb_title body = None -> pb_description body = None ->
  pb_priority body = None -> pb_status body = None ->
  pb_deadline body = None ->
  Database.set_items (Database.update_statement taskId (put_updates now body)) = []
  /\ PUT now taskId body w
     = (w, Returned (JsonError "Failed to update task" 500)).
Proof.
  intros H1 H2 H3 H4 H5.
  assert (E : Database.setClause (put_updates now body) = []).
  { apply put_updates_items. auto. }
  split; [exact E |].
  unfold PUT, try_catch, bind at 1, Database.updateTask, bind,
    Database.execute_update, Database.update_statement.
  cbn [Database.set_items]. rewrite E. reflexivity.
Qed.

Lemma PUT_without_a_field_fails_witness :
  PUT 30 1 {| pb_title := None; pb_description := None; pb_priority := None;
              pb_status := None; pb_deadline := None |} Sample.one_task
  = (Sample.one_task, Returned (JsonError "Failed to update task" 500)).
Proof.
  apply (PUT_without_a_field_fails 30 1
           {| pb_title := None; pb_description := None; pb_priority := None;
              pb_status := None; pb_deadline := None |} Sample.one_task);
    reflexivity.
Defined.

(** * The AI gateway *)

Lemma priority_schema_bounds (p : Q) :
  AIService.priority_schema p = true ->
  (inject_Z 1 <= p)%Q /\ (p <= inject_Z 3)%Q.
Proof.
  unfold AIService.priority_schema. intros H.
  apply andb_true_iff in H. destruct H as [H1 H2].
  split; now apply Qle_bool_iff.
Qed.

(** The schema takes a number that is no integer. *)
Example priority_schema_takes_a_fraction :
  AIService.priority_schema (5 # 2) = true /\ SQL.integer (5 # 2) = None.
Proof. split; reflexivity. Qed.

(** X8. What the gateway returns has passed its schema: a suggestion and a
    parsed task have a priority from 1 to 3, and so has every
    recommendation; anything else the service answers is thrown as an
    error of the service, never returned.  The priority is a number of that
    range, not one of 1, 2 and 3: see [priority_schema_takes_a_fraction]. *)
Theorem gateway_returns_checked_objects (ai : Service) (title0 input : string)
        (description0 : option string) (contextEntries : list ContextEntry)
        (existingTasks : list Task) (w : World) :
  match snd (AIService.suggestTaskPriority ai title0 description0 contextEntries w) with
  | Returned s => (inject_Z 1 <= s_priority s)%Q /\ (s_priority s <= inject_Z 3)%Q
  | Thrown e => e = AIServiceError
  end
  /\ match snd (AIService.parseNaturalLanguageTask ai input contextEntries w) with
     | Returned parsed =>
         (inject_Z 1 <= p_priority parsed)%Q /\ (p_priority parsed <= inject_Z 3)%Q
     | Thrown e => e = AIServiceError
     end
  /\ match snd (AIService.recommendTasks ai contextEntries existingTasks w) with
     | Returned rs =>
         Forall (fun r => (inject_Z 1 <= r_priority r)%Q
                          /\ (r_priority r <= inject_Z 3)%Q) rs
     | Thrown e => e = AIServiceError
     end.
Proof.
  split; [| split].
  - unfold AIService.suggestTaskPriority, AIService.generateObject.
    match goal with
    | |- context [AIService.attempt ?n ?a ?s ?p w] =>
        pose proof (attempt_outcome a s p n w) as H;
        destruct (snd (AIService.attempt n a s p w)); [| exact H]
    end.
    now apply priority_schema_bounds.
  - unfold AIService.parseNaturalLanguageTask, AIService.generateObject.
    match goal with
    | |- context [AIService.attempt ?n ?a ?s ?p w] =>
        pose proof (attempt_outcome a s p n w) as H;
        destruct (snd (AIService.attempt n a s p w)); [| exact H]
    end.
    now apply priority_schema_bounds.
  - unfold AIService.recommendTasks, AIService.generateObject.
    destruct (negb (JS.truthy_string _)); [constructor |].
    match goal with
    | |- context [AIService.attempt ?n ?a ?s ?p w] =>
        pose proof (attempt_outcome a s p n w) as H;
        destruct (snd (AIService.attempt n a s p w)) as [rs | e]; [| exact H]
    end.
    unfold AIService.TaskRecommendationsSchema in H.
    rewrite forallb_forall in H. apply Forall_forall.
    intros r Hr. apply priority_schema_bounds. now apply H.
Qed.

(** X9. The prompt for a suggestion is grounded in the first 10 context
    entries and the prompt for parsing in the first 5: two lists of entries
    that agree on those give the same call and the same result, whatever
    follows in either. *)
Theorem gateway_grounding_is_bounded (ai : Service) (title0 input : string)
        (description0 : option string) (entries entries' : list ContextEntry)
        (w : World) :
  (firstn 10 entries = firstn 10 entries' ->
   AIService.suggestTaskPriority ai title0 description0 entries w
   = AIService.suggestTaskPriority ai title0 description0 entries' w)
  /\ (firstn 5 entries = firstn 5 entries' ->
      AIService.parseNaturalLanguageTask ai input entries w
      = AIService.parseNaturalLanguageTask ai input entries' w).
Proof.
  unfold AIService.suggestTaskPriority, AIService.parseNaturalLanguageTask,
    JS.slice0.
  split; intros H; rewrite H; reflexivity.
Qed.

Lemma gateway_grounding_is_bounded_witness :
  AIService.suggestTaskPriority Sample.urgent "Pay rent" None
    (repeat (Sample.entry 1 100) 10 ++ [Sample.entry 2 90]) Sample.empty_world
  = AIService.suggestTaskPriority Sample.urgent "Pay rent" None
      (repeat (Sample.entry 1 100) 10) Sample.empty_world
  /\ AIService.parseNaturalLanguageTask Sample.urgent "rent by friday"
       (repeat (Sample.entry 1 100) 5 ++ [Sample.entry 2 90]) Sample.empty_world
     = AIService.parseNaturalLanguageTask Sample.urgent "rent by friday"
         (repeat (Sample.entry 1 100) 5) Sample.empty_world.
Proof.
  split.
  - apply (proj1 (gateway_grounding_is_bounded Sample.urgent "Pay rent" ""
                    None (repeat (Sample.entry 1 100) 10 ++ [Sample.entry 2 90])
                    (repeat (Sample.entry 1 100) 10) Sample.empty_world)).
    reflexivity.
  - apply (proj2 (gateway_grounding_is_bounded Sample.urgent "" "rent by friday"
                    None (repeat (Sample.entry 1 100) 5 ++ [Sample.entry 2 90])
                    (repeat (Sample.entry 1 100) 5) Sample.empty_world)).
    reflexivity.
Defined.

(** X10. With at least one context entry, whatever the entries say and
    whatever the existing tasks, [recommendTasks] asks the service: it
    sends one request at least and, with the retries of the package, three
    at most, exactly one when the first does not fail in the way that is
    retried; and it leaves the store as it is. *)
Theorem recommendTasks_with_context (ai : Service)
        (contextEntries : list ContextEntry) (existingTasks : list Task)
        (w : World) :
  contextEntries <> [] ->
  let w' := fst (AIService.recommendTasks ai contextEntries existingTasks w) in
  db w' = db w
  /\ (ai_calls w < ai_calls w' <= ai_calls w + 3)%nat
  /\ ((forall prompt, answer_recommendations ai (ai_calls w) prompt <> Unavailable) ->
      ai_calls w' = S (ai_calls w)).
Proof.
  destruct contextEntries as [| e es]; [intros H; now elim H | intros _].
  unfold AIService.recommendTasks. cbn [map].
  rewrite (truthy_string_nonempty _ (join_nonempty _ _ _ (entry_line_nonempty e))).
  cbn [negb]. unfold AIService.generateObject.
  split; [apply attempt_db |].
  split; [apply attempt_calls |].
  intros H. apply attempt_once, H.
Qed.

Lemma recommendTasks_with_context_witness :
  db (fst (AIService.recommendTasks Sample2.flaky [Sample.entry 1 100] []
             Sample.empty_world))
  = db Sample.empty_world
  /\ ai_calls (fst (AIService.recommendTasks Sample2.flaky [Sample.entry 1 100] []
                      Sample.empty_world))
     = 2%nat
  /\ ai_calls (fst (AIService.recommendTasks Sample.silent [Sample.entry 1 100] []
                      Sample.empty_world))
     = 3%nat
  /\ ai_calls (fst (AIService.recommendTasks Sample.urgent [Sample.entry 1 100] []
                      Sample.empty_world))
     = 1%nat.
Proof.
  split; [| split; [reflexivity | split; [reflexivity |]]].
  - apply (recommendTasks_with_context Sample2.flaky [Sample.entry 1 100] []
             Sample.empty_world).
    discriminate.
  - apply (recommendTasks_with_context Sample.urgent [Sample.entry 1 100] []
             Sample.empty_world); [discriminate |].
    intros prompt. discriminate.
Defined.

Lemma task_line_nonempty (render : Render) (task : Task) :
  AIService.task_line render task <> "".
Proof.
  unfold AIService.task_line. destruct (title task); simpl; discriminate.
Qed.

Lemma join_empty_iff (sep : string) (xs : list string) :
  (forall x, In x xs -> x <> "") ->
  JS.truthy_string (JS.join sep xs) = negb (match xs with [] => true | _ => false end).
Proof.
  destruct xs as [| x xs]; intros H; [reflexivity |].
  simpl. apply truthy_string_nonempty, join_nonempty, H. now left.
Qed.

(** X11. [analyzeTasks] looks at the tasks that are not completed and at the
    context entries: with none of either it returns [null] without asking
    the service, and with at least one of either it asks the service (one
    request at least, three at most) and does not return [null]: it returns
    the analysis or throws; neither way does it touch the store. *)
Theorem analyzeTasks_short_circuit
        (answer_analysis : nat -> string -> reply Analysis) (render : Render)
        (tasks0 : list Task) (contextEntries : list ContextEntry) (w : World) :
  let active :=
    filter (fun task => negb (String.eqb (status task) completed)) tasks0 in
  let result := AIService.analyzeTasks answer_analysis render tasks0 contextEntries w in
  (active = [] /\ contextEntries = [] -> result = (w, Returned None))
  /\ (active <> [] \/ contextEntries <> [] ->
      db (fst result) = db w
      /\ (ai_calls w < ai_calls (fst result) <= ai_calls w + 3)%nat
      /\ snd result <> Returned None).
Proof.
  intros active result. subst result. unfold AIService.analyzeTasks. fold active.
  rewrite (join_empty_iff AIService.nl (map AIService.entry_line contextEntries)).
  2:{ intros x Hx. apply in_map_iff in Hx. destruct Hx as (e & <- & _).
      apply entry_line_nonempty. }
  rewrite (join_empty_iff AIService.nl (map (AIService.task_line render) active)).
  2:{ intros x Hx. apply in_map_iff in Hx. destruct Hx as (t & <- & _).
      apply task_line_nonempty. }
  split.
  - intros [-> ->]. reflexivity.
  - intros H.
    assert (E : negb (negb (match map (AIService.task_line render) active with
                            | [] => true | _ => false end))
                && negb (negb (match map AIService.entry_line contextEntries with
                               | [] => true | _ => false end)) = false).
    { destruct active, contextEntries; simpl; try reflexivity.
      destruct H as [H | H]; now elim H. }
    rewrite E. unfold bind, AIService.generateObject.
    match goal with
    | |- context [AIService.attempt ?n ?a ?s ?p w] =>
        pose proof (attempt_db a s p n w) as Hdb;
        pose proof (attempt_calls a s p n w) as Hcalls;
        destruct (AIService.attempt n a s p w) as [w' [o | e]]
    end; simpl in *; (split; [exact Hdb |]); (split; [exact Hcalls |]);
      discriminate.
Qed.

Lemma analyzeTasks_short_circuit_witness :
  AIService.analyzeTasks Sample2.no_analysis Sample2.render
    [Sample.seed_task 6 2 completed (-5)] [] Sample.empty_world
  = (Sample.empty_world, Returned None)
  /\ snd (AIService.analyzeTasks Sample2.busy_week Sample2.render
            [Sample.seed_task 6 2 completed (-5); Sample.task1] []
            Sample.empty_world)
     <> Returned None.
Proof.
  split.
  - apply (proj1 (analyzeTasks_short_circuit Sample2.no_analysis Sample2.render
                    [Sample.seed_task 6 2 completed (-5)] [] Sample.empty_world)).
    split; reflexivity.
  - apply (proj2 (analyzeTasks_short_circuit Sample2.busy_week Sample2.render
                    [Sample.seed_task 6 2 completed (-5); Sample.task1] []
                    Sample.empty_world)).
    left. discriminate.
Defined.

(** * The analysis and recommendation endpoints *)

(** X12. For every user id that passes its check, the recommendations
    endpoint answers 500, whatever Tasks and context entries are stored and
    whatever the service would answer: the read of the context throws (the
    statement of [getContextEntries] is rejected on every call), no
    request is sent to the service and the store is as it was. *)
Theorem recommendations_fail (ai : Service) (now : timestamp)
        (userId : Z) (w : World) :
  userId <> 0 ->
  RecommendationsRoute.POST ai now (Some userId) w
  = (w, Returned (JsonError "Failed to get recommendations" 500)).
Proof.
  intros Hu.
  unfold RecommendationsRoute.POST, try_catch.
  rewrite (truthy_number_nonzero _ Hu). cbn [negb].
  unfold bind at 1 2, Database.getTasks.
  rewrite getContextEntries_rejected. reflexivity.
Qed.

Lemma recommendations_fail_witness :
  RecommendationsRoute.POST Sample.urgent (100 * 86400) (Some 1)
    Sample.three_entries
  = (Sample.three_entries,
     Returned (JsonError "Failed to get recommendations" 500)).
Proof.
  apply recommendations_fail. lia.
Defined.

(** X13. For every user id that passes its check, the analysis endpoint
    answers 500, whatever Tasks and context entries are stored and whatever
    the service would answer: the read of the context throws, no request
    is sent to the service and the store is as it was. *)
Theorem analysis_fails
        (answer_analysis : nat -> string -> reply Analysis) (render : Render)
        (now : timestamp) (userId : Z) (w : World) :
  userId <> 0 ->
  AnalyzeRoute.POST answer_analysis render now (Some userId) w
  = (w, Returned (JsonError "Failed to analyze tasks" 500)).
Proof.
  intros Hu.
  unfold AnalyzeRoute.POST, try_catch.
  rewrite (truthy_number_nonzero _ Hu). cbn [negb].
  unfold bind at 1 2, Database.getTasks.
  rewrite getContextEntries_rejected. reflexivity.
Qed.

Lemma analysis_fails_witness :
  AnalyzeRoute.POST Sample2.busy_week Sample2.render (100 * 86400) (Some 1)
    Sample.seed
  = (Sample.seed, Returned (JsonError "Failed to analyze tasks" 500)).
Proof.
  apply analysis_fails. lia.
Defined.

(** X14. The analysis and recommendation endpoints only read the store:
    whatever the user id and whatever the service answers, every table is
    after the request what it was before, and a request without a user id
    (or with the id 0) is answered 400. *)
Theorem insight_endpoints_only_read
        (answer_analysis : nat -> string -> reply Analysis) (render : Render)
        (ai : Service) (now : timestamp) (userId : option Z) (w : World) :
  db (fst (AnalyzeRoute.POST answer_analysis render now userId w)) = db w
  /\ db (fst (RecommendationsRoute.POST ai now userId w)) = db w
  /\ (JS.truthy JS.truthy_number userId = false ->
      AnalyzeRoute.POST answer_analysis render now userId w
      = (w, Returned (JsonError "Valid userId required" 400))
      /\ RecommendationsRoute.POST ai now userId w
         = (w, Returned (JsonError "Valid userId required" 400))).
Proof.
  split; [| split].
  - unfold AnalyzeRoute.POST, try_catch.
    destruct userId as [u |]; [| reflexivity].
    destruct (negb (JS.truthy_number u)); [reflexivity |].
    unfold bind at 1 2, Database.getTasks.
    rewrite getContextEntries_rejected. reflexivity.
  - unfold RecommendationsRoute.POST, try_catch.
    destruct userId as [u |]; [| reflexivity].
    destruct (negb (JS.truthy_number u)); [reflexivity |].
    unfold bind at 1 2, Database.getTasks.
    rewrite getContextEntries_rejected. reflexivity.
  - intros H. unfold AnalyzeRoute.POST, RecommendationsRoute.POST, try_catch.
    destruct userId as [u |]; [| split; reflexivity].
    simpl in H. rewrite H. split; reflexivity.
Qed.

Lemma insight_endpoints_only_read_witness :
  db (fst (AnalyzeRoute.POST Sample2.no_analysis Sample2.render 20 (Some 1)
             Sample.one_task))
  = db Sample.one_task
  /\ RecommendationsRoute.POST Sample.urgent 20 (Some 0) Sample.one_task
     = (Sample.one_task, Returned (JsonError "Valid userId required" 400)).
Proof.
  split.
  - exact (proj1 (insight_endpoints_only_read Sample2.no_analysis Sample2.render
                    Sample.urgent 20 (Some 1) Sample.one_task)).
  - exact (proj2 (proj2 (proj2 (insight_endpoints_only_read
                                  Sample2.no_analysis Sample2.render
                                  Sample.urgent 20 (Some 0) Sample.one_task))
                          eq_refl)).
Defined.

(** * POST /api/context *)

(** X15. A context request without a user id (or with the id 0), without
    content or without an entry type (or with an empty one) is answered
    400 and nothing is stored. *)
Theorem context_POST_rejects_missing_fields (now : timestamp) (nextval : Z)
        (body : ContextBody) (w : World) :
  JS.truthy JS.truthy_number (cb_userId body) = false
  \/ JS.truthy JS.truthy_string (cb_content body) = false
  \/ JS.truthy JS.truthy_string (cb_entryType body) = false ->
  ContextRoute.POST now nextval body w
  = (w, Returned (JsonError "Missing required fields" 400)).
Proof.
  unfold ContextRoute.POST, try_catch. intros H.
  destruct (cb_userId body) as [u |], (cb_content body) as [c0 |],
    (cb_entryType body) as [ty |]; simpl in H; try reflexivity.
  destruct H as [H | [H | H]]; rewrite H; simpl;
    rewrite ?orb_true_r; reflexivity.
Qed.

Lemma context_POST_rejects_missing_fields_witness :
  ContextRoute.POST 20 1
    {| cb_userId := Some 1; cb_content := Some ""; cb_entryType := Some "note";
       cb_entryDate := None |}
    Sample.empty_world
  = (Sample.empty_world, Returned (JsonError "Missing required fields" 400)).
Proof.
  apply context_POST_rejects_missing_fields. right. left. reflexivity.
Defined.

(** X16. A context request with its three fields and no date, or an empty
    one, stores one entry dated the day of the request (UTC), with the
    content and type given, and touches no Task; the entry is the last row
    of the table and the answer of the endpoint. *)
Theorem context_POST_stores_entry (now : timestamp) (nextval : Z)
        (body : ContextBody) (w : World) (userId : Z) (content0 entryType : string) :
  cb_userId body = Some userId -> userId <> 0 ->
  cb_content body = Some content0 -> content0 <> "" ->
  cb_entryType body = Some entryType -> entryType <> "" ->
  JS.truthy JS.truthy_text (cb_entryDate body) = false ->
  exists e w',
    ContextRoute.POST now nextval body w = (w', Returned (Json e))
    /\ context_entries (db w') = context_entries (db w) ++ [e]
    /\ tasks (db w') = tasks (db w)
    /\ ce_user_id e = userId
    /\ content e = content0
    /\ entry_type e = entryType
    /\ entry_date e = current_date now.
Proof.
  intros Hu Hu0 Hc Hc0 Ht Ht0 Hd.
  assert (E : JS.or_else JS.truthy_text (cb_entryDate body)
                         (JS.Written (current_date now))
              = JS.Written (current_date now)).
  { destruct (cb_entryDate body) as [s |]; [| reflexivity].
    simpl in Hd. simpl. now rewrite Hd. }
  unfold ContextRoute.POST, try_catch, bind.
  rewrite Hu, Hc, Ht.
  rewrite (truthy_number_nonzero _ Hu0), (truthy_string_nonempty _ Hc0),
    (truthy_string_nonempty _ Ht0).
  cbn [negb orb]. unfold Database.createContextEntry.
  cbn [ced_entry_date]. rewrite E. cbn [JS.truthy_text SQL.read].
  eexists. eexists.
  split; [reflexivity |]. repeat split.
Qed.

Lemma context_POST_stores_entry_witness :
  exists e w',
    ContextRoute.POST (100 * 86400) 4 Sample2.note_body Sample.three_entries
    = (w', Returned (Json e))
    /\ context_entries (db w') = context_entries (db Sample.three_entries) ++ [e]
    /\ entry_date e = 100.
Proof.
  destruct (context_POST_stores_entry (100 * 86400) 4 Sample2.note_body
              Sample.three_entries 1 "standup at ten" "note"
              eq_refl ltac:(lia) eq_refl ltac:(discriminate)
              eq_refl ltac:(discriminate) eq_refl)
    as (e & w' & E & Hc & _ & _ & _ & _ & Hd).
  exists e, w'. exact (conj E (conj Hc Hd)).
Defined.

(** * Components *)

(** X17. A Task created from a recommendation (the button of the insights
    panel) keeps the recommendation's title and description but neither its
    priority nor its tags: the stored Task has priority 3 and no tag, and
    no call to the service is made. *)
Theorem recommendation_loses_priority_and_tags (ai : Service) (now : timestamp)
        (userId : Z) (recommendation : Recommendation) (w : World) :
  userId <> 0 -> r_title recommendation <> "" ->
  exists t,
    POST ai now (AIInsights.recommendation_body userId recommendation) w
    = (after_insert w (ai_calls w) t, Returned (Json t))
    /\ user_id t = userId
    /\ title t = r_title recommendation
    /\ description t
       = JS.or_null JS.truthy_string (Some (r_description recommendation))
    /\ priority t = 3
    /\ context_tags t = Some []
    /\ status t = pending
    /\ deadline t = None
    /\ ai_suggested_priority t = None.
Proof.
  intros Hu Ht.
  unfold POST, try_catch, bind, AIInsights.recommendation_body.
  cbn [b_userId b_title b_useAI b_naturalLanguage b_description JS.default_to orb].
  rewrite (truthy_number_nonzero _ Hu), (truthy_string_nonempty _ Ht).
  cbn [negb orb]. unfold ret, Database.createTask. rewrite inserted_initial.
  eexists. split; [reflexivity |].
  simpl. repeat split.
  destruct (JS.truthy_string (r_description recommendation)) eqn:E; simpl;
    [now rewrite E | reflexivity].
Qed.

Lemma recommendation_loses_priority_and_tags_witness :
  r_priority Sample2.follow_up = inject_Z 1
  /\ r_contextTags Sample2.follow_up = ["work"]
  /\ exists t,
      POST Sample.silent 20 (AIInsights.recommendation_body 1 Sample2.follow_up)
           Sample.empty_world
      = (after_insert Sample.empty_world 0 t, Returned (Json t))
      /\ priority t = 3
      /\ context_tags t = Some [].
Proof.
  split; [reflexivity |]. split; [reflexivity |].
  destruct (recommendation_loses_priority_and_tags Sample.silent 20 1
              Sample2.follow_up Sample.empty_world
              ltac:(lia) ltac:(discriminate))
    as (t & E & _ & _ & _ & Hp & Hc & _).
  exists t. exact (conj E (conj Hp Hc)).
Defined.

Lemma status_counts (l : list Task) :
  Forall (fun t => valid_status (status t)) l ->
  (DashboardStats.pendingTasks l + DashboardStats.inProgressTasks l
   + DashboardStats.completedTasks l = List.length l)%nat.
Proof.
  unfold DashboardStats.pendingTasks, DashboardStats.inProgressTasks,
    DashboardStats.completedTasks.
  induction 1 as [| t l Ht _ IH]; simpl; [reflexivity |].
  destruct Ht as [E | [E | E]]; rewrite E; simpl; lia.
Qed.

Lemma filter_length_split {A} (p q : A -> bool) (l : list A) :
  (forall x, p x = true -> q x = true -> False) ->
  (List.length (filter p l) + List.length (filter q l) <= List.length l)%nat.
Proof.
  intros H. induction l as [| x l IH]; simpl; [lia |].
  destruct (p x) eqn:Px, (q x) eqn:Qx; simpl; try lia.
  exfalso. eauto.
Qed.

(** X18. On Tasks whose status is pending, in_progress or completed, the
    three status counts of the dashboard add up to the total; and on any
    Tasks the high-priority count and the overdue count leave the
    completed Tasks out, so that each stays within the Tasks that are not
    completed. *)
Theorem dashboard_counts_add_up (now : timestamp) (tasks0 : list Task) :
  (Forall (fun t => valid_status (status t)) tasks0 ->
   (DashboardStats.pendingTasks tasks0 + DashboardStats.inProgressTasks tasks0
    + DashboardStats.completedTasks tasks0
    = DashboardStats.totalTasks tasks0)%nat)
  /\ (DashboardStats.highPriorityTasks tasks0 + DashboardStats.completedTasks tasks0
      <= DashboardStats.totalTasks tasks0)%nat
  /\ (DashboardStats.overdueTasks now tasks0 + DashboardStats.completedTasks tasks0
      <= DashboardStats.totalTasks tasks0)%nat.
Proof.
  split; [apply status_counts |].
  split; apply filter_length_split; intros t H1 H2; rewrite H2 in H1.
  - rewrite andb_false_r in H1. discriminate.
  - destruct (deadline t); [rewrite andb_false_r in H1 |]; discriminate.
Qed.

Lemma dashboard_counts_add_up_witness :
  (DashboardStats.pendingTasks (tasks (db Sample.seed))
   + DashboardStats.inProgressTasks (tasks (db Sample.seed))
   + DashboardStats.completedTasks (tasks (db Sample.seed))
   = DashboardStats.totalTasks (tasks (db Sample.seed)))%nat
  /\ DashboardStats.completedTasks (tasks (db Sample.seed)) = 1%nat
  /\ DashboardStats.highPriorityTasks (tasks (db Sample.seed)) = 2%nat.
Proof.
  split; [| split; reflexivity].
  apply (proj1 (dashboard_counts_add_up 0 (tasks (db Sample.seed)))).
  repeat (apply Forall_cons;
          [unfold valid_status; simpl;
           first [left; reflexivity | right; left; reflexivity
                  | right; right; reflexivity] |]).
  apply Forall_nil.
Defined.

(** X19. For every Task the POST endpoint answers with, the badge of the
    task list renders, and it is the badge Low with no suggestion of the AI
    beside it: the endpoint stores a Task without AI only, with priority 3
    and no suggested priority. *)
Theorem created_task_badge (ai : Service) (now : timestamp) (body : PostBody)
        (w w' : World) (t : Task) :
  POST ai now body w = (w', Returned (Json t)) ->
  TaskList.getPriorityBadge (priority t) (ai_suggested_priority t)
  = Some ("Low", None).
Proof.
  intros H.
  destruct (POST_cases ai now body w)
    as [(message & code & E) | (row & E & _ & Hp & _ & _ & Hs)].
  - rewrite E in H. discriminate H.
  - rewrite E in H. injection H as _ Ht. subst t.
    rewrite Hp, Hs. reflexivity.
Qed.

Lemma created_task_badge_witness :
  exists t w',
    POST Sample.urgent 20 Sample.plain_high Sample.empty_world
    = (w', Returned (Json t))
    /\ b_priority Sample.plain_high = Some (inject_Z 1)
    /\ TaskList.getPriorityBadge (priority t) (ai_suggested_priority t)
       = Some ("Low", None).
Proof.
  eexists. eexists. split; [reflexivity |]. split; [reflexivity |].
  eapply (created_task_badge Sample.urgent 20 Sample.plain_high
            Sample.empty_world).
  reflexivity.
Defined.
